(** * QuickScope data layer: the DuckDB cache and the cache-aside fetcher

    A shallow embedding of [quickscope/data/cache.py], of the control flow of
    [quickscope/data/fetcher.py] and of [MarketData] from
    [quickscope/data/models.py], followed by the properties of the
    specification that were checked against it.

    Conventions of the embedding.
    - Python code that reads the clock, touches the database, logs or may
      raise is a computation [M A]: a function from a [World] to a
      [result A] and the next [World].
    - The DuckDB table [cache] has [key VARCHAR PRIMARY KEY]; it is a finite
      map from the key to the remaining four columns.
    - Times are integers counting microseconds, the resolution of both
      [datetime] and DuckDB's [TIMESTAMP].
    - Whether a call into DuckDB fails is decided by the environment: the
      world carries a schedule of faults, one flag consumed by each call.
    - [pickle] and the yfinance provider are not code of the repository; they
      are parameters of the development. *)

From Stdlib Require Import ZArith Ascii.
From Stdlib.Strings Require Import Byte.
From stdpp Require Import gmap strings list fin_maps.

Local Open Scope string_scope.
Local Open Scope Z_scope.

(** ** Strings: [str.upper], the cache key and SQL [LIKE] *)

(** [str.upper] on one character of an ASCII string: the letters a-z go to
    A-Z, every other character stays.  Strings are byte strings here, and
    this is [str.upper] on ASCII text only: Python also changes letters
    outside ASCII, which the bytes of this model do not show.  A statement
    that depends on how the uppercase forms of two tickers compare therefore
    assumes [is_ascii] of them (below). *)
Definition ascii_upper (c : ascii) : ascii :=
  let n := nat_of_ascii c in
  if ((97 <=? n)%nat && (n <=? 122)%nat)%bool then ascii_of_nat (n - 32) else c.

(** [str.upper], on ASCII strings. *)
Fixpoint upper (s : string) : string :=
  match s with
  | EmptyString => EmptyString
  | String c s' => String (ascii_upper c) (upper s')
  end.

(** [Cache._make_key]: [f"{ticker.upper()}:{data_type}"]. *)
Definition _make_key (ticker data_type : string) : string :=
  upper ticker +:+ ":" +:+ data_type.

(** SQL [LIKE]: [%] matches any run of characters, [_] any one character,
    every other character itself (case-sensitive, no escape character). *)
Fixpoint like (pattern : string) : string -> bool :=
  match pattern with
  | EmptyString => fun s => match s with EmptyString => true | _ => false end
  | String c p' =>
      if Ascii.eqb c "%" then
        fix star (s : string) : bool :=
          (like p' s ||
           match s with EmptyString => false | String _ s' => star s' end)%bool
      else if Ascii.eqb c "_" then
        fun s => match s with EmptyString => false | String _ s' => like p' s' end
      else
        fun s => match s with
                 | EmptyString => false
                 | String d s' => (Ascii.eqb c d && like p' s')%bool
                 end
  end.

(** ** Configuration ([config.py]) *)

Module Config.
Definition PRICE_CACHE_EXPIRY : Z := 15 * 60.
Definition FUNDAMENTAL_CACHE_EXPIRY : Z := 24 * 60 * 60.
Definition NEWS_CACHE_EXPIRY : Z := 60 * 60.
Definition OPTIONS_CACHE_EXPIRY : Z := 15 * 60.
End Config.

(** ** Exceptions, results and the log *)

Inductive exn : Type :=
  | DuckDBError                    (* connect or a statement failed *)
  | ConversionError                (* a value does not fit its column *)
  | PickleError                    (* pickle.dumps / pickle.loads failed *)
  | ProviderError (msg : string).  (* anything raised while asking yfinance *)

Inductive result (A : Type) : Type :=
  | Ok (a : A)
  | Raise (e : exn).
Arguments Ok {A} a.
Arguments Raise {A} e.

Inductive level : Type := DEBUG | INFO | WARNING | ERROR.

(** The messages handed to [logger], one constructor per format string. *)
Inductive message : Type :=
  | CacheMiss (key : string)
  | CacheExpired (key : string)
  | CacheHit (key : string)
  | ErrorRetrieving (e : exn)
  | ErrorSerializing (e : exn)
  | Cached (key : string) (expiry_seconds : Z)
  | ErrorStoring (e : exn)
  | Deleted (key : string)
  | ErrorDeleting (e : exn)
  | ClearedTicker (ticker : string)
  | ErrorClearingTicker (e : exn)
  | ClearedAll
  | ErrorClearing (e : exn)
  | ClearedExpired (deleted_count : Z)
  | ErrorClearingExpired (e : exn)
  | ErrorStats (e : exn)
  | Fetching (what ticker : string)
  | ErrorFetching (what ticker : string) (e : exn)
  | FailedToFetch (what : string) (e : exn).

(** ** The persisted row and the world *)

Definition blob : Type := list byte.

(** Columns [value], [data_type], [timestamp], [expiry_seconds]; the column
    [key] is the key of the map. *)
Record Row : Type := mkRow {
  value : blob;
  data_type : string;
  timestamp : Z;
  expiry_seconds : Z
}.

(** ** Record types ([models.py]) *)

(** The dataclasses the data layer only passes around: their fields are
    never inspected by the code modelled here. *)
Class Models : Type := {
  StockData : Type;
  Fundamentals : Type;
  OptionsChain : Type;
  NewsItem : Type;
  AnalystRatings : Type
}.

(** [MarketData]: the bundle built by [DataFetcher.fetch_all_data]. *)
Record MarketData `{Models} : Type := mkMarketData {
  md_ticker : string;
  md_timestamp : Z;
  stock_data : option StockData;
  fundamentals : option Fundamentals;
  options_chain : option OptionsChain;
  news : list NewsItem;
  analyst_ratings : option AnalystRatings
}.

Arguments mkMarketData {_} _ _ _ _ _ _ _.

(** [MarketData.is_complete]. *)
Definition is_complete `{Models} (self : MarketData) : bool :=
  (bool_decide (stock_data self <> None) &&
   bool_decide (fundamentals self <> None))%bool.

(** [MarketData.has_news_data]. *)
Definition has_news_data `{Models} (self : MarketData) : bool :=
  (0 <? Z.of_nat (length (news self))).

(** What the cache is handed as [data: Any] by the fetch wrapper. *)
Inductive payload `{Models} : Type :=
  | VStockData (d : StockData)
  | VFundamentals (d : Fundamentals)
  | VOptionsChain (d : OptionsChain)
  | VNews (d : list NewsItem)
  | VAnalystRatings (d : AnalystRatings)
  | VMarketData (d : MarketData).

(** ** What lies outside the repository *)

(** [pickle], and for each method of [DataFetcher] the statements of its
    [try] block: they talk to yfinance and build the record, or raise.  The
    provider has a state of its own, so that two requests may differ. *)
Class Externals `{Models} : Type := {
  Provider : Type;
  pickle_dumps : payload -> option blob;
  pickle_loads : blob -> option payload;
  yf_stock_price_history :
    string -> string -> string -> Provider -> result StockData * Provider;
  yf_fundamental_data : string -> Provider -> result Fundamentals * Provider;
  yf_options_chain : string -> Provider -> result OptionsChain * Provider;
  yf_analyst_recommendations :
    string -> Provider -> result AnalystRatings * Provider;
  yf_news_headlines : string -> Z -> Provider -> result (list NewsItem) * Provider
}.

(** The methods of [DataFetcher] that ask the provider. *)
Inductive fetch_method : Type :=
  | PriceHistory | FundamentalData | OptionsChainM | AnalystRecommendations
  | NewsHeadlines.

Section QuickScope.

Context `{Externals}.

Record World : Type := mkWorld {
  table : gmap string Row;       (* the rows of table [cache] *)
  clock : Z;                     (* datetime.now(), in microseconds *)
  faults : list bool;            (* true: the next DuckDB call raises *)
  conns : nat;                   (* connections currently open *)
  db_file : option Z;            (* size of the database file, if it exists *)
  log : list (level * message);  (* oldest first *)
  provider : Provider;
  calls : list (fetch_method * string)  (* provider requests made, oldest first *)
}.

Definition with_table (t : gmap string Row) (w : World) : World :=
  mkWorld t (clock w) (faults w) (conns w) (db_file w) (log w) (provider w) (calls w).
Definition with_clock (c : Z) (w : World) : World :=
  mkWorld (table w) c (faults w) (conns w) (db_file w) (log w) (provider w) (calls w).
Definition with_faults (f : list bool) (w : World) : World :=
  mkWorld (table w) (clock w) f (conns w) (db_file w) (log w) (provider w) (calls w).
Definition with_conns (n : nat) (w : World) : World :=
  mkWorld (table w) (clock w) (faults w) n (db_file w) (log w) (provider w) (calls w).
Definition with_log (l : list (level * message)) (w : World) : World :=
  mkWorld (table w) (clock w) (faults w) (conns w) (db_file w) l (provider w) (calls w).
Definition with_provider (p : Provider) (w : World) : World :=
  mkWorld (table w) (clock w) (faults w) (conns w) (db_file w) (log w) p (calls w).
Definition with_calls (c : list (fetch_method * string)) (w : World) : World :=
  mkWorld (table w) (clock w) (faults w) (conns w) (db_file w) (log w) (provider w) c.

(** Time passing between two operations. *)
Definition advance (d : Z) (w : World) : World := with_clock (clock w + d) w.

(** ** The monad of Python computations *)

Definition M (A : Type) : Type := World -> result A * World.

Definition ret {A} (a : A) : M A := fun w => (Ok a, w).
Definition raise {A} (e : exn) : M A := fun w => (Raise e, w).
Definition bind {A B} (c : M A) (k : A -> M B) : M B :=
  fun w => match c w with
           | (Ok a, w') => k a w'
           | (Raise e, w') => (Raise e, w')
           end.

(** [try: body  except Exception as e: handler(e)]. *)
Definition try_except {A} (body : M A) (handler : exn -> M A) : M A :=
  fun w => match body w with
           | (Ok a, w') => (Ok a, w')
           | (Raise e, w') => handler e w'
           end.

(** [try: body  finally: cleanup]: the cleanup runs on both exits; an
    exception of the cleanup replaces the outcome of the body. *)
Definition finally {A} (body : M A) (cleanup : M unit) : M A :=
  fun w => match body w with
           | (r, w') =>
               match cleanup w' with
               | (Ok _, w'') => (r, w'')
               | (Raise e, w'') => (Raise e, w'')
               end
           end.


End QuickScope.

Declare Scope py_scope.
Delimit Scope py_scope with py.
Notation "x <- c1 ;; c2" := (bind c1 (fun x => c2))
  (at level 100, c1 at next level, right associativity) : py_scope.
Notation "c1 ;; c2" := (bind c1 (fun _ => c2))
  (at level 100, right associativity) : py_scope.
Local Open Scope py_scope.

Section Primitives.

Context `{Externals}.

(** [logger.debug/info/warning/error]: appends, never raises. *)
Definition logger (l : level) (m : message) : M unit :=
  fun w => (Ok tt, with_log (log w ++ [(l, m)]) w).

(** [datetime.now()]. *)
Definition datetime_now : M Z := fun w => (Ok (clock w), w).

(** [timedelta(seconds=n)], in microseconds. *)
Definition timedelta (seconds : Z) : Z := seconds * 1000000.

(** ** DuckDB *)

(** Every call into DuckDB takes the next flag of the fault schedule; an
    exhausted schedule means a healthy store. *)
Definition duckdb_call : M unit :=
  fun w => match faults w with
           | [] => (Ok tt, w)
           | false :: fs => (Ok tt, with_faults fs w)
           | true :: fs => (Raise DuckDBError, with_faults fs w)
           end.

(** [duckdb.connect(str(self.db_path))]. *)
Definition duckdb_connect : M unit :=
  duckdb_call ;; fun w => (Ok tt, with_conns (S (conns w)) w).

(** [conn.close()]. *)
Definition conn_close : M unit :=
  fun w => (Ok tt, with_conns (pred (conns w)) w).

(** [conn.commit()]: the connection is in autocommit mode, every statement
    has already been committed on its own and there is nothing to do. *)
Definition conn_commit : M unit := ret tt.

(** Column [expiry_seconds INTEGER]: 32 bits, signed. *)
Definition fits_INTEGER (n : Z) : bool :=
  ((-2147483648 <=? n) && (n <=? 2147483647))%bool.

(** [SELECT value, timestamp, expiry_seconds FROM cache WHERE key = ?]
    followed by [fetchone()]. *)
Definition select_by_key (key : string) : M (option Row) :=
  duckdb_call ;; fun w => (Ok (table w !! key), w).

(** [INSERT OR REPLACE INTO cache (...) VALUES (?, ?, ?, ?, ?)]. *)
Definition insert_or_replace (key : string) (r : Row) : M unit :=
  duckdb_call ;;
  if fits_INTEGER (expiry_seconds r)
  then fun w => (Ok tt, with_table (<[key := r]> (table w)) w)
  else raise ConversionError.

(** [DELETE FROM cache WHERE key = ?]. *)
Definition delete_by_key (key : string) : M unit :=
  duckdb_call ;; fun w => (Ok tt, with_table (delete key (table w)) w).

(** [DELETE FROM cache WHERE key LIKE ?]. *)
Definition delete_like (pattern : string) : M unit :=
  duckdb_call ;;
  fun w => (Ok tt,
            with_table (filter (fun kr => like pattern (fst kr) = false) (table w)) w).

(** [DELETE FROM cache]. *)
Definition delete_all : M unit :=
  duckdb_call ;; fun w => (Ok tt, with_table ∅ w).

(** [SELECT key, timestamp, expiry_seconds FROM cache] with [fetchall()]
    (and the same without the key, for the statistics). *)
Definition select_all : M (list (string * Row)) :=
  duckdb_call ;; fun w => (Ok (map_to_list (table w)), w).

(** [SELECT COUNT( * ) FROM cache]. *)
Definition select_count : M Z :=
  duckdb_call ;; fun w => (Ok (Z.of_nat (size (table w))), w).

End Primitives.

(** ** class Cache *)

Module Cache.
Section Methods.

Context `{Externals}.

(** [Cache._ensure_schema], run by [__init__]: [CREATE TABLE IF NOT EXISTS]
    leaves an existing table alone.  No [except] clause here. *)
Definition _ensure_schema : M unit :=
  duckdb_connect ;;
  finally (duckdb_call ;; conn_commit) conn_close.

(** [Cache._is_expired]: [datetime.now() > timestamp + timedelta(...)]. *)
Definition _is_expired (timestamp expiry_seconds : Z) : M bool :=
  let expiry_time := timestamp + timedelta expiry_seconds in
  now <- datetime_now ;;
  ret (expiry_time <? now).

(** The dictionary of [Cache._get_default_expiry]. *)
Definition expiry_map : list (string * Z) :=
  [ ("price", Config.PRICE_CACHE_EXPIRY);
    ("stock_data", Config.PRICE_CACHE_EXPIRY);
    ("fundamental", Config.FUNDAMENTAL_CACHE_EXPIRY);
    ("fundamentals", Config.FUNDAMENTAL_CACHE_EXPIRY);
    ("options", Config.OPTIONS_CACHE_EXPIRY);
    ("options_chain", Config.OPTIONS_CACHE_EXPIRY);
    ("news", Config.NEWS_CACHE_EXPIRY);
    ("analyst_ratings", Config.FUNDAMENTAL_CACHE_EXPIRY);
    ("market_data", Config.PRICE_CACHE_EXPIRY) ].

(** [dict.get(key, default)]. *)
Fixpoint dict_get (d : list (string * Z)) (key : string) (default : Z) : Z :=
  match d with
  | [] => default
  | (k, v) :: d' => if String.eqb k key then v else dict_get d' key default
  end.

(** [Cache._get_default_expiry]. *)
Definition _get_default_expiry (data_type : string) : Z :=
  dict_get expiry_map data_type Config.FUNDAMENTAL_CACHE_EXPIRY.

(** [Cache.delete]. *)
Definition delete (ticker data_type : string) : M unit :=
  let key := _make_key ticker data_type in
  duckdb_connect ;;
  finally
    (try_except
       (delete_by_key key ;;
        conn_commit ;;
        logger DEBUG (Deleted key))
       (fun e => logger ERROR (ErrorDeleting e)))
    conn_close.

(** [Cache.get].  [None] is Python's [None]. *)
Definition get (ticker data_type : string) : M (option payload) :=
  let key := _make_key ticker data_type in
  duckdb_connect ;;
  finally
    (try_except
       (result <- select_by_key key ;;
        match result with
        | None => logger DEBUG (CacheMiss key) ;; ret None
        | Some row =>
            expired <- _is_expired (timestamp row) (expiry_seconds row) ;;
            if expired : bool then
              logger DEBUG (CacheExpired key) ;;
              delete ticker data_type ;;
              ret None
            else
              match pickle_loads (value row) with
              | None => raise PickleError
              | Some data => logger DEBUG (CacheHit key) ;; ret (Some data)
              end
        end)
       (fun e => logger ERROR (ErrorRetrieving e) ;; ret None))
    conn_close.

(** [Cache.set]; [expiry = None] is the omitted argument. *)
Definition set (ticker data_type : string) (data : payload)
    (expiry : option Z) : M unit :=
  let key := _make_key ticker data_type in
  let expiry :=
    match expiry with
    | None => _get_default_expiry data_type
    | Some n => n
    end in
  match pickle_dumps data with
  | None => logger ERROR (ErrorSerializing PickleError)
  | Some value_blob =>
      duckdb_connect ;;
      finally
        (try_except
           (now <- datetime_now ;;
            insert_or_replace key (mkRow value_blob data_type now expiry) ;;
            conn_commit ;;
            logger DEBUG (Cached key expiry))
           (fun e => logger ERROR (ErrorStoring e)))
        conn_close
  end.

(** [Cache.clear_ticker]. *)
Definition clear_ticker (ticker : string) : M unit :=
  duckdb_connect ;;
  finally
    (try_except
       (let pattern := upper ticker +:+ ":%" in
        delete_like pattern ;;
        conn_commit ;;
        logger INFO (ClearedTicker ticker))
       (fun e => logger ERROR (ErrorClearingTicker e)))
    conn_close.

(** [Cache.clear_all]. *)
Definition clear_all : M unit :=
  duckdb_connect ;;
  finally
    (try_except
       (delete_all ;;
        conn_commit ;;
        logger INFO ClearedAll)
       (fun e => logger ERROR (ErrorClearing e)))
    conn_close.

(** The [for] loop of [Cache.clear_expired], threading [deleted_count]. *)
Fixpoint clear_expired_loop (result : list (string * Row))
    (deleted_count : Z) : M Z :=
  match result with
  | [] => ret deleted_count
  | (key, row) :: rest =>
      expired <- _is_expired (timestamp row) (expiry_seconds row) ;;
      if expired : bool then
        delete_by_key key ;;
        clear_expired_loop rest (deleted_count + 1)
      else
        clear_expired_loop rest deleted_count
  end.

(** [Cache.clear_expired].  The method has no [return] statement: the call
    evaluates to Python's [None], here [None : option Z], whatever was
    deleted. *)
Definition clear_expired : M (option Z) :=
  duckdb_connect ;;
  finally
    (try_except
       (result <- select_all ;;
        deleted_count <- clear_expired_loop result 0 ;;
        conn_commit ;;
        logger INFO (ClearedExpired deleted_count) ;;
        ret None)
       (fun e => logger ERROR (ErrorClearingExpired e) ;; ret None))
    conn_close.

(** The dictionary returned by [Cache.get_stats].  [db_size_mb], the same
    size divided and rounded in floating point, is left out. *)
Record Stats : Type := mkStats {
  total_entries : Z;
  expired_entries : Z;
  valid_entries : Z;
  db_size_bytes : Z
}.

(** [sum(1 for timestamp, expiry_seconds in result if self._is_expired(...))]. *)
Fixpoint count_expired (result : list (string * Row)) : M Z :=
  match result with
  | [] => ret 0
  | (_, row) :: rest =>
      expired <- _is_expired (timestamp row) (expiry_seconds row) ;;
      n <- count_expired rest ;;
      ret ((if expired : bool then 1 else 0) + n)
  end.

(** [Cache.get_stats]; [None] is the empty dictionary of the [except]
    branch. *)
Definition get_stats : M (option Stats) :=
  duckdb_connect ;;
  finally
    (try_except
       (total <- select_count ;;
        result <- select_all ;;
        expired_count <- count_expired result ;;
        db_size <- (fun w => (Ok (default 0 (db_file w)), w)) ;;
        ret (Some (mkStats total expired_count (total - expired_count) db_size)))
       (fun e => logger ERROR (ErrorStats e) ;; ret None))
    conn_close.

End Methods.
End Cache.

(** ** class DataFetcher ([fetcher.py]) *)

Module DataFetcher.
Section Methods.

Context `{Externals}.

(** Entering a method of the fetcher is recorded in [calls]; this has no
    counterpart in the code, it is what a counting test double observes. *)
Definition called (m : fetch_method) (ticker : string) : M unit :=
  fun w => (Ok tt, with_calls (calls w ++ [(m, ticker)]) w).

(** Running the statements of a [try] block against the provider. *)
Definition ask {A} (body : Provider -> result A * Provider) : M A :=
  fun w => let (r, p) := body (provider w) in (r, with_provider p w).

(** [DataFetcher.fetch_stock_price_history]; defaults ["1y"], ["1d"]. *)
Definition fetch_stock_price_history (ticker period interval : string)
    : M StockData :=
  called PriceHistory ticker ;;
  logger INFO (Fetching "price history" ticker) ;;
  try_except
    (ask (yf_stock_price_history ticker period interval))
    (fun e => logger ERROR (ErrorFetching "stock data" ticker e) ;; raise e).

(** [DataFetcher.fetch_fundamental_data]. *)
Definition fetch_fundamental_data (ticker : string) : M Fundamentals :=
  called FundamentalData ticker ;;
  logger INFO (Fetching "fundamental data" ticker) ;;
  try_except
    (ask (yf_fundamental_data ticker))
    (fun e => logger ERROR (ErrorFetching "fundamental data" ticker e) ;; raise e).

(** [DataFetcher.fetch_options_chain]. *)
Definition fetch_options_chain (ticker : string) : M OptionsChain :=
  called OptionsChainM ticker ;;
  logger INFO (Fetching "options chain" ticker) ;;
  try_except
    (ask (yf_options_chain ticker))
    (fun e => logger ERROR (ErrorFetching "options chain" ticker e) ;; raise e).

(** [DataFetcher.fetch_analyst_recommendations]. *)
Definition fetch_analyst_recommendations (ticker : string) : M AnalystRatings :=
  called AnalystRecommendations ticker ;;
  logger INFO (Fetching "analyst recommendations" ticker) ;;
  try_except
    (ask (yf_analyst_recommendations ticker))
    (fun e =>
       logger ERROR (ErrorFetching "analyst recommendations" ticker e) ;; raise e).

(** [DataFetcher.fetch_news_headlines]; default [max_items = 20].  The
    [except] clause returns the empty list instead of raising. *)
Definition fetch_news_headlines (ticker : string) (max_items : Z)
    : M (list NewsItem) :=
  called NewsHeadlines ticker ;;
  logger INFO (Fetching "news headlines" ticker) ;;
  try_except
    (ask (yf_news_headlines ticker max_items))
    (fun e => logger ERROR (ErrorFetching "news" ticker e) ;; ret []).

(** [DataFetcher.fetch_all_data].  The assignments to the attributes of
    [market_data] are threaded through the five [try] statements. *)
Definition fetch_all_data (ticker : string) : M MarketData :=
  logger INFO (Fetching "all data" ticker) ;;
  now <- datetime_now ;;
  let market_data := mkMarketData (upper ticker) now None None None [] None in
  market_data <-
    try_except
      (d <- fetch_stock_price_history ticker "1y" "1d" ;;
       ret (mkMarketData (md_ticker market_data) (md_timestamp market_data)
              (Some d) (fundamentals market_data) (options_chain market_data)
              (news market_data) (analyst_ratings market_data)))
      (fun e => logger ERROR (FailedToFetch "stock data" e) ;; ret market_data) ;;
  market_data <-
    try_except
      (d <- fetch_fundamental_data ticker ;;
       ret (mkMarketData (md_ticker market_data) (md_timestamp market_data)
              (stock_data market_data) (Some d) (options_chain market_data)
              (news market_data) (analyst_ratings market_data)))
      (fun e => logger ERROR (FailedToFetch "fundamental data" e) ;; ret market_data) ;;
  market_data <-
    try_except
      (d <- fetch_options_chain ticker ;;
       ret (mkMarketData (md_ticker market_data) (md_timestamp market_data)
              (stock_data market_data) (fundamentals market_data) (Some d)
              (news market_data) (analyst_ratings market_data)))
      (fun e => logger WARNING (FailedToFetch "options data" e) ;; ret market_data) ;;
  market_data <-
    try_except
      (d <- fetch_news_headlines ticker 20 ;;
       ret (mkMarketData (md_ticker market_data) (md_timestamp market_data)
              (stock_data market_data) (fundamentals market_data)
              (options_chain market_data) d (analyst_ratings market_data)))
      (fun e => logger WARNING (FailedToFetch "news" e) ;; ret market_data) ;;
  market_data <-
    try_except
      (d <- fetch_analyst_recommendations ticker ;;
       ret (mkMarketData (md_ticker market_data) (md_timestamp market_data)
              (stock_data market_data) (fundamentals market_data)
              (options_chain market_data) (news market_data) (Some d)))
      (fun e => logger WARNING (FailedToFetch "analyst ratings" e) ;; ret market_data) ;;
  ret market_data.

End Methods.
End DataFetcher.

(** ** class CachedDataFetcher ([cache.py]) *)

Module CachedDataFetcher.
Section Methods.

Context `{Externals}.

(** The attribute [self.use_cache]; [self.fetcher] and [self.cache] are the
    fetcher and the cache above. *)
Variable use_cache : bool.

(** The body shared, word for word, by the six methods of the class:
    [[
      if self.use_cache:
          cached = self.cache.get(ticker, data_type)
          if cached is not None:
              return cached
      data = self.fetcher.fetch_...(ticker, ...)
      if self.use_cache:
          self.cache.set(ticker, data_type, data)
      return data
    ]] *)
Definition read_through (ticker data_type : string) (fetch : M payload)
    : M payload :=
  cached <- (if use_cache then Cache.get ticker data_type else ret None) ;;
  match cached with
  | Some cached => ret cached
  | None =>
      data <- fetch ;;
      (if use_cache then Cache.set ticker data_type data None else ret tt) ;;
      ret data
  end.

Definition fetch_stock_price_history (ticker period interval : string)
    : M payload :=
  read_through ticker "stock_data"
    (d <- DataFetcher.fetch_stock_price_history ticker period interval ;;
     ret (VStockData d)).

Definition fetch_fundamental_data (ticker : string) : M payload :=
  read_through ticker "fundamentals"
    (d <- DataFetcher.fetch_fundamental_data ticker ;; ret (VFundamentals d)).

Definition fetch_options_chain (ticker : string) : M payload :=
  read_through ticker "options_chain"
    (d <- DataFetcher.fetch_options_chain ticker ;; ret (VOptionsChain d)).

Definition fetch_analyst_recommendations (ticker : string) : M payload :=
  read_through ticker "analyst_ratings"
    (d <- DataFetcher.fetch_analyst_recommendations ticker ;;
     ret (VAnalystRatings d)).

Definition fetch_news_headlines (ticker : string) (max_items : Z) : M payload :=
  read_through ticker "news"
    (d <- DataFetcher.fetch_news_headlines ticker max_items ;; ret (VNews d)).

Definition fetch_all_data (ticker : string) : M payload :=
  read_through ticker "market_data"
    (d <- DataFetcher.fetch_all_data ticker ;; ret (VMarketData d)).

End Methods.
End CachedDataFetcher.

(** ** Vocabulary of the specification *)

Section Vocabulary.

Context `{Externals}.

(** The derived state "expired?" of a row, at a given time. *)
Definition expired_at (now : Z) (r : Row) : bool :=
  timestamp r + timedelta (expiry_seconds r) <? now.

(** The category under which each single-category operation caches. *)
Definition category (m : fetch_method) : string :=
  match m with
  | PriceHistory => "stock_data"
  | FundamentalData => "fundamentals"
  | OptionsChainM => "options_chain"
  | AnalystRecommendations => "analyst_ratings"
  | NewsHeadlines => "news"
  end.

(** The keyword arguments a caller may pass along. *)
Record kwargs : Type := mkKwargs {
  period : string;
  interval : string;
  max_items : Z
}.

(** The Fetch Collaborator behind each single-category operation. *)
Definition collaborator (m : fetch_method) (ticker : string) (kw : kwargs)
    : M payload :=
  match m with
  | PriceHistory =>
      d <- DataFetcher.fetch_stock_price_history ticker (period kw) (interval kw) ;;
      ret (VStockData d)
  | FundamentalData =>
      d <- DataFetcher.fetch_fundamental_data ticker ;; ret (VFundamentals d)
  | OptionsChainM =>
      d <- DataFetcher.fetch_options_chain ticker ;; ret (VOptionsChain d)
  | AnalystRecommendations =>
      d <- DataFetcher.fetch_analyst_recommendations ticker ;;
      ret (VAnalystRatings d)
  | NewsHeadlines =>
      d <- DataFetcher.fetch_news_headlines ticker (max_items kw) ;; ret (VNews d)
  end.

(** The five single-category operations of the wrapper. *)
Definition single_fetch (use_cache : bool) (m : fetch_method)
    (ticker : string) (kw : kwargs) : M payload :=
  match m with
  | PriceHistory =>
      CachedDataFetcher.fetch_stock_price_history use_cache ticker
        (period kw) (interval kw)
  | FundamentalData => CachedDataFetcher.fetch_fundamental_data use_cache ticker
  | OptionsChainM => CachedDataFetcher.fetch_options_chain use_cache ticker
  | AnalystRecommendations =>
      CachedDataFetcher.fetch_analyst_recommendations use_cache ticker
  | NewsHeadlines =>
      CachedDataFetcher.fetch_news_headlines use_cache ticker (max_items kw)
  end.

(** The statements of the [try] block of each fetcher method, as the
    provider answers them. *)
Definition provider_answer (m : fetch_method) (ticker : string) (kw : kwargs)
    (p : Provider) : result payload :=
  match m with
  | PriceHistory =>
      match fst (yf_stock_price_history ticker (period kw) (interval kw) p) with
      | Ok d => Ok (VStockData d) | Raise e => Raise e
      end
  | FundamentalData =>
      match fst (yf_fundamental_data ticker p) with
      | Ok d => Ok (VFundamentals d) | Raise e => Raise e
      end
  | OptionsChainM =>
      match fst (yf_options_chain ticker p) with
      | Ok d => Ok (VOptionsChain d) | Raise e => Raise e
      end
  | AnalystRecommendations =>
      match fst (yf_analyst_recommendations ticker p) with
      | Ok d => Ok (VAnalystRatings d) | Raise e => Raise e
      end
  | NewsHeadlines =>
      match fst (yf_news_headlines ticker (max_items kw) p) with
      | Ok d => Ok (VNews d) | Raise e => Raise e
      end
  end.

(** A computation that neither calls the fetcher nor touches the provider. *)
Definition keeps_provider {A} (c : M A) : Prop :=
  forall w, calls (snd (c w)) = calls w /\ provider (snd (c w)) = provider w.

End Vocabulary.

(** A string of ASCII characters only (every byte below 128): the strings
    on which [upper] is Python's [str.upper]. *)
Fixpoint is_ascii (s : string) : bool :=
  match s with
  | EmptyString => true
  | String c s' => ((nat_of_ascii c <? 128)%nat && is_ascii s')%bool
  end.

(** A ticker without the separator of the key. *)
Fixpoint no_colon (s : string) : bool :=
  match s with
  | EmptyString => true
  | String c s' => (negb (Ascii.eqb c ":") && no_colon s')%bool
  end.

(** ** A small instance, to run the definitions on *)

Module Demo.

Definition models : Models :=
  {| StockData := byte; Fundamentals := byte; OptionsChain := byte;
     NewsItem := byte; AnalystRatings := byte |}.

(** A toy codec: one tag byte, then the content.  Bundles are not
    supported. *)
Definition dumps (v : @payload models) : option blob :=
  match v with
  | VStockData d => Some [x01; d]
  | VFundamentals d => Some [x02; d]
  | VOptionsChain d => Some [x03; d]
  | VNews d => Some (x04 :: d)
  | VAnalystRatings d => Some [x05; d]
  | VMarketData _ => None
  end.

Definition loads (b : blob) : option (@payload models) :=
  match b with
  | [x01; d] => Some (VStockData (H := models) d)
  | [x02; d] => Some (VFundamentals (H := models) d)
  | [x03; d] => Some (VOptionsChain (H := models) d)
  | x04 :: d => Some (VNews (H := models) d)
  | [x05; d] => Some (VAnalystRatings (H := models) d)
  | _ => None
  end.

(** A provider that has prices, fundamentals and ratings, and fails on
    options and news; its state counts the requests. *)
Definition externals : @Externals models :=
  {| Provider := nat;
     pickle_dumps := dumps;
     pickle_loads := loads;
     yf_stock_price_history := fun _ _ _ n => (Ok (x2a : @StockData models), S n);
     yf_fundamental_data := fun _ n => (Ok (x07 : @Fundamentals models), S n);
     yf_options_chain := fun _ n => (Raise (ProviderError "no options"), S n);
     yf_analyst_recommendations :=
       fun _ n => (Ok (x09 : @AnalystRatings models), S n);
     yf_news_headlines := fun _ _ n => (Raise (ProviderError "no news"), S n) |}.

Definition world : Type := @World models externals.

(** An empty cache at time 0 on a healthy store. *)
Definition fresh : world :=
  @mkWorld models externals ∅ 0 [] 0%nat None [] 0%nat [].

Definition kw : kwargs := mkKwargs "1y" "1d" 20.

End Demo.

(** ** Option chains ([models.py]) *)

Module OptionsData.
Section Records.

(** Python's [float]; the methods below never compute with it. *)
Variable float : Type.

(** [OptionContract]. *)
Record OptionContract : Type := mkOptionContract {
  oc_ticker : string;
  contract_symbol : string;
  strike : float;
  expiration : Z;
  option_type : string;
  last_price : float;
  bid : float;
  ask : float;
  volume : Z;
  open_interest : Z;
  implied_volatility : option float;
  delta : option float;
  gamma : option float;
  theta : option float;
  vega : option float;
  in_the_money : bool
}.

(** [OptionsChain]. *)
Record OptionsChain : Type := mkOptionsChain {
  ticker : string;
  timestamp : Z;
  expirations : list Z;
  calls : list OptionContract;
  puts : list OptionContract
}.

(** [OptionsChain.get_calls_by_expiration]:
    [[c for c in self.calls if c.expiration == expiration]]. *)
Definition get_calls_by_expiration (self : OptionsChain) (e : Z)
    : list OptionContract :=
  List.filter (fun c => expiration c =? e) (calls self).

(** [OptionsChain.get_puts_by_expiration]. *)
Definition get_puts_by_expiration (self : OptionsChain) (e : Z)
    : list OptionContract :=
  List.filter (fun p => expiration p =? e) (puts self).

(** [min(iterable)] on a non-empty sequence, scanning from the left and
    keeping the smaller of the two. *)
Definition py_min (first : Z) (rest : list Z) : Z :=
  fold_left (fun m x => if x <? m then x else m) rest first.

(** [OptionsChain.get_nearest_expiration]:
    [min(self.expirations) if self.expirations else None]. *)
Definition get_nearest_expiration (self : OptionsChain) : option Z :=
  match expirations self with
  | [] => None
  | x :: rest => Some (py_min x rest)
  end.

End Records.
End OptionsData.

(** ** More vocabulary *)

(** A ticker without the wildcards of [LIKE]. *)
Fixpoint no_wildcard (s : string) : bool :=
  match s with
  | EmptyString => true
  | String c s' =>
      (negb (Ascii.eqb c "%") && negb (Ascii.eqb c "_") && no_wildcard s')%bool
  end.

Section MoreVocabulary.

Context `{Externals}.

(** A computation that closes every connection it opens. *)
Definition keeps_conns {A} (c : M A) : Prop :=
  forall w, conns (snd (c w)) = conns w.

(** A computation that leaves the table alone. *)
Definition keeps_table {A} (c : M A) : Prop :=
  forall w, table (snd (c w)) = table w.

(** The requests [fetch_all_data] makes of the fetcher, in order. *)
Definition all_data_calls (ticker : string) : list (fetch_method * string) :=
  [ (PriceHistory, ticker); (FundamentalData, ticker); (OptionsChainM, ticker);
    (NewsHeadlines, ticker); (AnalystRecommendations, ticker) ].

End MoreVocabulary.

(** * Properties *)

Arguments _make_key : simpl never.
Arguments timedelta : simpl never.
Arguments like : simpl never.
Arguments upper : simpl never.

(** Unfolding an operation down to the world it works on. *)
Ltac run :=
  unfold Cache.get, Cache.set, Cache.delete, Cache.clear_ticker,
    Cache.clear_all, Cache.clear_expired, Cache.get_stats,
    Cache._ensure_schema, Cache._is_expired,
    select_by_key, insert_or_replace, delete_by_key, delete_like, delete_all,
    select_all, select_count, duckdb_connect, conn_close, conn_commit,
    duckdb_call, datetime_now, logger, finally, try_except, bind, ret, raise;
  simpl.

Section StoreLemmas.

Context `{Externals}.

(** On a healthy store a write of an encodable record with a storable TTL
    puts exactly the expected row under the key. *)
Lemma set_writes_row ticker dt data expiry b w :
  faults w = [] ->
  pickle_dumps data = Some b ->
  fits_INTEGER (default (Cache._get_default_expiry dt) expiry) = true ->
  exists w',
    Cache.set ticker dt data expiry w = (Ok tt, w') /\
    table w' =
      <[_make_key ticker dt :=
          mkRow b dt (clock w) (default (Cache._get_default_expiry dt) expiry)]>
        (table w) /\
    clock w' = clock w /\ faults w' = [] /\
    provider w' = provider w /\ calls w' = calls w.
Proof.
  intros Hf Hb HT. destruct w as [t c f n d l p cs]. simpl in *. subst f.
  unfold Cache.set. rewrite Hb.
  replace (match expiry with Some n0 => n0 | None => Cache._get_default_expiry dt end)
    with (default (Cache._get_default_expiry dt) expiry) by (destruct expiry; reflexivity).
  run. rewrite HT. simpl. eexists. repeat split; reflexivity.
Qed.

(** A read of a row that has not expired and decodes. *)
Lemma get_fresh ticker dt row r w :
  faults w = [] ->
  table w !! _make_key ticker dt = Some row ->
  pickle_loads (value row) = Some r ->
  expired_at (clock w) row = false ->
  exists w',
    Cache.get ticker dt w = (Ok (Some r), w') /\ table w' = table w /\
    provider w' = provider w /\ calls w' = calls w.
Proof.
  intros Hf Hrow Hdec Hexp. destruct w as [t c f n d l p cs]. simpl in *.
  subst f. unfold expired_at in Hexp.
  run. rewrite Hrow. simpl. rewrite Hexp, Hdec. simpl.
  eexists. repeat split; reflexivity.
Qed.

(** A read of an expired row. *)
Lemma get_expired ticker dt row w :
  faults w = [] ->
  table w !! _make_key ticker dt = Some row ->
  expired_at (clock w) row = true ->
  exists w',
    Cache.get ticker dt w = (Ok None, w') /\
    table w' = base.delete (_make_key ticker dt) (table w).
Proof.
  intros Hf Hrow Hexp. destruct w as [t c f n d l p cs]. simpl in *.
  subst f. unfold expired_at in Hexp.
  run. rewrite Hrow. simpl. rewrite Hexp. simpl.
  eexists. split; reflexivity.
Qed.

(** What [delete] does to the table of a healthy store. *)
Lemma delete_healthy ticker dt w :
  faults w = [] ->
  exists w',
    Cache.delete ticker dt w = (Ok tt, w') /\
    table w' = base.delete (_make_key ticker dt) (table w).
Proof.
  intros Hf. destruct w as [t c f n d l p cs]. simpl in *. subst f.
  run. eexists. split; reflexivity.
Qed.

End StoreLemmas.

Section TTL.

Context `{Externals}.

(** C1. TTL correctness of [get].  Let a record be written for
    [(ticker, data_type)] with a TTL of [T] seconds at time [clock w0], and
    let [w] be any later state of a healthy store that still holds that row.
    If the time of the read is at most [written_at + T], [get] returns the
    record and leaves the table alone; if it is later, [get] returns absent
    and leaves the table as [delete(ticker, data_type)] does, without the
    row. *)
Theorem get_ttl_correct ticker dt data T b w0 w :
  faults w0 = [] ->
  pickle_dumps data = Some b ->
  pickle_loads b = Some data ->
  fits_INTEGER T = true ->
  faults w = [] ->
  table w !! _make_key ticker dt =
    table (snd (Cache.set ticker dt data (Some T) w0)) !! _make_key ticker dt ->
  (clock w <= clock w0 + timedelta T ->
     fst (Cache.get ticker dt w) = Ok (Some data) /\
     table (snd (Cache.get ticker dt w)) = table w) /\
  (clock w0 + timedelta T < clock w ->
     fst (Cache.get ticker dt w) = Ok None /\
     table (snd (Cache.get ticker dt w)) = table (snd (Cache.delete ticker dt w)) /\
     table (snd (Cache.get ticker dt w)) !! _make_key ticker dt = None).
Proof.
  intros Hf0 Henc Hdec HT Hf Hsame.
  destruct (set_writes_row ticker dt data (Some T) b w0 Hf0 Henc HT)
    as (w1 & Hset & Htab & _).
  rewrite Hset in Hsame. simpl in Hsame.
  rewrite Htab, lookup_insert_eq in Hsame. simpl in Hsame.
  split; intros Hclock.
  - destruct (get_fresh ticker dt _ data w Hf Hsame Hdec) as (w' & Hget & Ht & _).
    { unfold expired_at. simpl. apply Z.ltb_ge. exact Hclock. }
    rewrite Hget. simpl. auto.
  - destruct (get_expired ticker dt _ w Hf Hsame) as (w' & Hget & Ht).
    { unfold expired_at. simpl. apply Z.ltb_lt. exact Hclock. }
    destruct (delete_healthy ticker dt w Hf) as (w'' & Hdel & Ht'').
    rewrite Hget, Hdel. simpl. rewrite Ht, Ht''.
    repeat split; auto. apply lookup_delete_eq.
Qed.

End TTL.

(** The scenario of the specification: a write with a TTL of 2 seconds, a
    read 3 seconds later. *)
Lemma get_ttl_correct_witness :
  let w0 := Demo.fresh in
  let data := VFundamentals (H := Demo.models) x07 in
  let w := advance 3000000 (snd (Cache.set "TSLA" "fundamentals" data (Some 2) w0)) in
  (clock w <= clock w0 + timedelta 2 ->
     fst (Cache.get "TSLA" "fundamentals" w) = Ok (Some data) /\
     table (snd (Cache.get "TSLA" "fundamentals" w)) = table w) /\
  (clock w0 + timedelta 2 < clock w ->
     fst (Cache.get "TSLA" "fundamentals" w) = Ok None /\
     table (snd (Cache.get "TSLA" "fundamentals" w)) =
       table (snd (Cache.delete "TSLA" "fundamentals" w)) /\
     table (snd (Cache.get "TSLA" "fundamentals" w)) !! _make_key "TSLA" "fundamentals"
       = None).
Proof.
  apply (get_ttl_correct (H0 := Demo.externals) "TSLA" "fundamentals"
           (VFundamentals (H := Demo.models) x07) 2 [x02; x07]);
    reflexivity.
Defined.

Section WriteAbandoned.

Context `{Externals}.

(** A record that cannot be pickled: [set] logs and returns before any
    connection is opened. *)
Lemma set_unencodable ticker dt data expiry w :
  pickle_dumps data = None ->
  Cache.set ticker dt data expiry w =
    (Ok tt, with_log (log w ++ [(ERROR, ErrorSerializing PickleError)]) w).
Proof. intros Henc. unfold Cache.set. rewrite Henc. reflexivity. Qed.

(** C5. Atomic abandon on encode failure.  Whatever the state of the cache
    and of the store, a [set] of a record that [pickle.dumps] rejects returns
    normally, and the world it leaves differs from the one it found by one
    ERROR line in the log only: no row is added, replaced or removed. *)
Theorem set_abandons_on_encode_failure ticker dt data expiry w :
  pickle_dumps data = None ->
  Cache.set ticker dt data expiry w =
    (Ok tt, with_log (log w ++ [(ERROR, ErrorSerializing PickleError)]) w) /\
  table (snd (Cache.set ticker dt data expiry w)) = table w /\
  faults (snd (Cache.set ticker dt data expiry w)) = faults w.
Proof.
  intros Henc. rewrite (set_unencodable _ _ _ _ _ Henc). auto.
Qed.

End WriteAbandoned.

(** The toy codec does not encode bundles: a bundle written over a cached
    entry leaves that entry in place. *)
Lemma set_abandons_on_encode_failure_witness :
  let bundle :=
    VMarketData (H := Demo.models) (mkMarketData "AAPL" 0 None None None [] None) in
  let w :=
    snd (Cache.set "AAPL" "market_data" (VNews (H := Demo.models) [x01]) None
           Demo.fresh) in
  Cache.set "AAPL" "market_data" bundle None w =
    (Ok tt, with_log (log w ++ [(ERROR, ErrorSerializing PickleError)]) w) /\
  table (snd (Cache.set "AAPL" "market_data" bundle None w)) = table w /\
  faults (snd (Cache.set "AAPL" "market_data" bundle None w)) = faults w.
Proof.
  apply (set_abandons_on_encode_failure (H0 := Demo.externals)). reflexivity.
Defined.

Section FailOpen.

Context `{Externals}.

(** The shape of every store operation: connect, then a guarded body, then
    close.  Once the connection is open, a handler that returns makes the
    whole operation return. *)
Lemma guarded_returns {A} (body : M A) (handler : exn -> M A) w :
  (forall e w', exists a, fst (handler e w') = Ok a) ->
  fst (duckdb_connect w) = Ok tt ->
  exists a,
    fst ((duckdb_connect ;; finally (try_except body handler) conn_close) w) = Ok a.
Proof.
  intros Hh Hc. unfold bind at 1.
  destruct (duckdb_connect w) as [[[]|e] w1] eqn:E; simpl in Hc; [|discriminate].
  unfold finally, try_except.
  destruct (body w1) as [[a|e] w2].
  - simpl. eauto.
  - destruct (Hh e w2) as [a Ha]. destruct (handler e w2) as [r w3].
    simpl in *. subst r. eauto.
Qed.

(** [set] returns once the connection is open. *)
Lemma set_returns_when_connected ticker dt data expiry w :
  fst (duckdb_connect w) = Ok tt ->
  fst (Cache.set ticker dt data expiry w) = Ok tt.
Proof.
  intros Hc. unfold Cache.set. destruct (pickle_dumps data); [|reflexivity].
  match goal with
  | |- fst ((duckdb_connect ;; finally (try_except ?body ?handler) conn_close) w) = _ =>
      destruct (guarded_returns body handler w) as [[] E]; auto
  end.
  intros e w'. eexists. reflexivity.
Qed.

(** C4, amended. Fail-open once the connection is open.  If
    [duckdb.connect] succeeds, no store operation raises: [get] returns a
    value or absent, [clear_expired] returns [None], [get_stats] a
    dictionary, the others return silently.  If moreover the statement
    that follows fails, [get] returns absent and [get], [set], [delete],
    [clear_ticker] and [clear_all] leave every row as it was; and a blob
    that does not decode makes [get] return absent. *)
Theorem fail_open_when_connected ticker dt data expiry w :
  fst (duckdb_connect w) = Ok tt ->
  ((exists v, fst (Cache.get ticker dt w) = Ok v) /\
   fst (Cache.set ticker dt data expiry w) = Ok tt /\
   fst (Cache.delete ticker dt w) = Ok tt /\
   fst (Cache.clear_ticker ticker w) = Ok tt /\
   fst (Cache.clear_all w) = Ok tt /\
   fst (Cache.clear_expired w) = Ok None /\
   (exists s, fst (Cache.get_stats w) = Ok s)) /\
  (forall fs, faults w = false :: true :: fs ->
     fst (Cache.get ticker dt w) = Ok None /\
     table (snd (Cache.get ticker dt w)) = table w /\
     table (snd (Cache.set ticker dt data expiry w)) = table w /\
     table (snd (Cache.delete ticker dt w)) = table w /\
     table (snd (Cache.clear_ticker ticker w)) = table w /\
     table (snd (Cache.clear_all w)) = table w) /\
  (forall row,
     faults w = [] ->
     table w !! _make_key ticker dt = Some row ->
     expired_at (clock w) row = false ->
     pickle_loads (value row) = None ->
     fst (Cache.get ticker dt w) = Ok None /\
     table (snd (Cache.get ticker dt w)) = table w).
Proof.
  intros Hc. split; [|split].
  - repeat split.
    + apply guarded_returns; [|exact Hc]. intros e w'. eexists. reflexivity.
    + apply set_returns_when_connected. exact Hc.
    + destruct (guarded_returns
        (delete_by_key (_make_key ticker dt) ;; conn_commit ;;
         logger DEBUG (Deleted (_make_key ticker dt)))
        (fun e => logger ERROR (ErrorDeleting e)) w) as [[] E]; auto.
      intros e w'. eexists. reflexivity.
    + destruct (guarded_returns
        (delete_like (upper ticker +:+ ":%") ;; conn_commit ;;
         logger INFO (ClearedTicker ticker))
        (fun e => logger ERROR (ErrorClearingTicker e)) w) as [[] E]; auto.
      intros e w'. eexists. reflexivity.
    + destruct (guarded_returns
        (delete_all ;; conn_commit ;; logger INFO ClearedAll)
        (fun e => logger ERROR (ErrorClearing e)) w) as [[] E]; auto.
      intros e w'. eexists. reflexivity.
    + unfold Cache.clear_expired. unfold bind at 1.
      destruct (duckdb_connect w) as [[[]|e] w1]; simpl in Hc; [|discriminate].
      unfold finally, try_except.
      destruct (select_all w1) as [[l|e] w2] eqn:Es; unfold bind at 1; rewrite Es;
        [|reflexivity].
      unfold bind at 1.
      destruct (Cache.clear_expired_loop l 0 w2) as [[n|e] w3]; reflexivity.
    + apply guarded_returns; [|exact Hc]. intros e w'. eexists. reflexivity.
  - intros fs Hf. destruct w as [t c f n d l p cs]. simpl in Hf. subst f.
    unfold Cache.set. destruct (pickle_dumps data); run; repeat split.
  - intros row Hf Hrow Hexp Hdec. destruct w as [t c f n d l p cs].
    simpl in *. subst f. unfold expired_at in Hexp.
    run. rewrite Hrow. simpl. rewrite Hexp, Hdec. simpl. auto.
Qed.

End FailOpen.

(** With the connection refused, the error leaves every operation. *)
Lemma connect_failure_propagates :
  let w := with_faults [true] Demo.fresh in
  fst (Cache.get "AAPL" "price" w) = Raise DuckDBError /\
  fst (Cache.get "AAPL" "price" w) <> Ok None /\
  fst (Cache.set "AAPL" "price" (VStockData (H := Demo.models) x2a) None w)
    = Raise DuckDBError /\
  fst (Cache.delete "AAPL" "price" w) = Raise DuckDBError /\
  fst (Cache.clear_ticker "AAPL" w) = Raise DuckDBError /\
  fst (Cache.clear_all w) = Raise DuckDBError.
Proof. vm_compute. repeat split; discriminate. Qed.

(** A store that connects and then fails its first statement. *)
Lemma fail_open_when_connected_witness :
  let w := with_faults [false; true] Demo.fresh in
  fst (duckdb_connect w) = Ok tt /\
  fst (Cache.get "AAPL" "price" w) = Ok None /\
  table (snd (Cache.set "AAPL" "price" (VStockData (H := Demo.models) x2a) None w))
    = table w.
Proof.
  split; [reflexivity|].
  destruct (fail_open_when_connected (H0 := Demo.externals) "AAPL" "price"
              (VStockData (H := Demo.models) x2a) None
              (with_faults [false; true] Demo.fresh) eq_refl)
    as (_ & Hfail & _).
  destruct (Hfail [] eq_refl) as (Hget & _ & Hset & _).
  split; [exact Hget | exact Hset].
Defined.

(** ** What an operation leaves alone *)

Section Frames.

Context `{Externals}.

Lemma keeps_ret {A} (a : A) : keeps_provider (ret a).
Proof. intros w. split; reflexivity. Qed.

Lemma keeps_raise {A} e : keeps_provider (@raise _ _ A e).
Proof. intros w. split; reflexivity. Qed.

Lemma keeps_bind {A B} (c : M A) (k : A -> M B) :
  keeps_provider c -> (forall a, keeps_provider (k a)) -> keeps_provider (bind c k).
Proof.
  intros Hc Hk w. unfold bind. specialize (Hc w).
  destruct (c w) as [[a|e] w1]; simpl in *; [|exact Hc].
  destruct (Hk a w1) as [H1 H2]. destruct Hc as [H3 H4]. split; congruence.
Qed.

Lemma keeps_try_except {A} (body : M A) handler :
  keeps_provider body -> (forall e, keeps_provider (handler e)) ->
  keeps_provider (try_except body handler).
Proof.
  intros Hb Hh w. unfold try_except. specialize (Hb w).
  destruct (body w) as [[a|e] w1]; simpl in *; [exact Hb|].
  destruct (Hh e w1) as [H1 H2]. destruct Hb as [H3 H4]. split; congruence.
Qed.

Lemma keeps_finally {A} (body : M A) cleanup :
  keeps_provider body -> keeps_provider cleanup ->
  keeps_provider (finally body cleanup).
Proof.
  intros Hb Hc w. unfold finally. specialize (Hb w).
  destruct (body w) as [r w1]. specialize (Hc w1).
  destruct (cleanup w1) as [[u|e] w2]; simpl in *;
    destruct Hb, Hc; split; congruence.
Qed.

Lemma keeps_logger l m : keeps_provider (logger l m).
Proof. intros w. split; reflexivity. Qed.

Lemma keeps_datetime_now : keeps_provider datetime_now.
Proof. intros w. split; reflexivity. Qed.

Lemma keeps_duckdb_call : keeps_provider duckdb_call.
Proof. intros w. unfold duckdb_call. destruct (faults w) as [|[] fs]; split; reflexivity. Qed.

Lemma keeps_conn_close : keeps_provider conn_close.
Proof. intros w. split; reflexivity. Qed.

Lemma keeps_update {A} (f : World -> A) (g : World -> gmap string Row) :
  keeps_provider (fun w => (Ok (f w), with_table (g w) w)).
Proof. intros w. split; reflexivity. Qed.

Lemma keeps_read {A} (f : World -> A) :
  keeps_provider (fun w => (Ok (f w), w)).
Proof. intros w. split; reflexivity. Qed.

Lemma keeps_duckdb_connect : keeps_provider duckdb_connect.
Proof.
  apply keeps_bind; [apply keeps_duckdb_call|]. intros _ w. split; reflexivity.
Qed.

End Frames.

Create HintDb frame.

#[export] Hint Resolve keeps_ret keeps_raise keeps_logger keeps_datetime_now
  keeps_duckdb_call keeps_conn_close keeps_duckdb_connect : frame.

Ltac frame_step :=
  match goal with
  | |- keeps_provider (bind _ _) => apply keeps_bind
  | |- keeps_provider (try_except _ _) => apply keeps_try_except
  | |- keeps_provider (finally _ _) => apply keeps_finally
  | |- keeps_provider (match ?x with _ => _ end) => destruct x
  | |- keeps_provider (if ?x then _ else _) => destruct x
  | |- forall _, _ => intro
  | |- keeps_provider (fun w => (Ok _, with_table _ w)) =>
      apply (keeps_update (fun _ => tt))
  | |- keeps_provider (fun w => (Ok _, w)) => apply keeps_read
  | |- keeps_provider _ => solve [auto with frame]
  end.

Section StoreFrames.

Context `{Externals}.

Lemma keeps_delete ticker dt : keeps_provider (Cache.delete ticker dt).
Proof.
  unfold Cache.delete, delete_by_key, conn_commit. repeat frame_step.
Qed.

Lemma keeps_get ticker dt : keeps_provider (Cache.get ticker dt).
Proof.
  unfold Cache.get, select_by_key, Cache._is_expired. repeat frame_step.
  apply keeps_delete.
Qed.


End StoreFrames.

Section CacheAside.

Context `{Externals}.

Lemma single_fetch_read_through use_cache m ticker kw :
  single_fetch use_cache m ticker kw =
  CachedDataFetcher.read_through use_cache ticker (category m)
    (collaborator m ticker kw).
Proof. destruct m; reflexivity. Qed.

(** Entering the collaborator is recorded, once. *)
Lemma collaborator_called m ticker kw w :
  calls (snd (collaborator m ticker kw w)) = (calls w ++ [(m, ticker)])%list.
Proof.
  destruct w as [t c f n d l p cs].
  destruct m; unfold collaborator, DataFetcher.fetch_stock_price_history,
    DataFetcher.fetch_fundamental_data, DataFetcher.fetch_options_chain,
    DataFetcher.fetch_analyst_recommendations, DataFetcher.fetch_news_headlines,
    DataFetcher.called, DataFetcher.ask; run.
  - destruct (yf_stock_price_history ticker (period kw) (interval kw) p) as [[]]; reflexivity.
  - destruct (yf_fundamental_data ticker p) as [[]]; reflexivity.
  - destruct (yf_options_chain ticker p) as [[]]; reflexivity.
  - destruct (yf_analyst_recommendations ticker p) as [[]]; reflexivity.
  - destruct (yf_news_headlines ticker (max_items kw) p) as [[]]; reflexivity.
Qed.

Lemma default_expiry_fits m :
  fits_INTEGER (Cache._get_default_expiry (category m)) = true.
Proof. destruct m; reflexivity. Qed.

(** C2, amended. Cache-aside read-through, for each of the five
    single-category operations with [use_cache] true.  On a hit the
    operation is the lookup and nothing more: same result, same final world,
    the fetcher not called.  On a miss followed by a successful fetch, the
    fetcher has been called once, and the operation goes on exactly as
    [Cache.set(ticker, category, record)] with no explicit TTL: it returns
    the fetched record whenever that call returns, which it does when the
    record cannot be encoded and whenever the connection opens, whether or
    not the row gets written; on a healthy store the row written carries the
    default TTL of the category. *)
Theorem read_through_cache_aside m ticker kw w :
  (forall v w1,
     Cache.get ticker (category m) w = (Ok (Some v), w1) ->
     single_fetch true m ticker kw w = (Ok v, w1) /\
     calls w1 = calls w /\ provider w1 = provider w) /\
  (forall r w1 w2,
     Cache.get ticker (category m) w = (Ok None, w1) ->
     collaborator m ticker kw w1 = (Ok r, w2) ->
     calls w2 = (calls w ++ [(m, ticker)])%list /\
     single_fetch true m ticker kw w =
       (match fst (Cache.set ticker (category m) r None w2) with
        | Ok _ => Ok r
        | Raise e => Raise e
        end, snd (Cache.set ticker (category m) r None w2)) /\
     (pickle_dumps r = None \/ fst (duckdb_connect w2) = Ok tt ->
      fst (single_fetch true m ticker kw w) = Ok r) /\
     (forall b,
        faults w2 = [] -> pickle_dumps r = Some b ->
        table (snd (single_fetch true m ticker kw w)) !! _make_key ticker (category m)
        = Some (mkRow b (category m) (clock w2)
                  (Cache._get_default_expiry (category m))))).
Proof.
  rewrite single_fetch_read_through. unfold CachedDataFetcher.read_through.
  split.
  - intros v w1 Hget. unfold bind. rewrite Hget. split; [reflexivity|].
    pose proof (keeps_get ticker (category m) w) as Hk. rewrite Hget in Hk.
    exact Hk.
  - intros r w1 w2 Hget Hfetch.
    assert (Hrun :
      (cached <- Cache.get ticker (category m) ;;
       match cached with
       | Some cached0 => ret cached0
       | None =>
           data <- collaborator m ticker kw ;;
           Cache.set ticker (category m) data None ;; ret data
       end) w =
      (match fst (Cache.set ticker (category m) r None w2) with
       | Ok _ => Ok r
       | Raise e => Raise e
       end, snd (Cache.set ticker (category m) r None w2))).
    { unfold bind at 1. rewrite Hget. unfold bind at 1. rewrite Hfetch.
      unfold bind, ret.
      destruct (Cache.set ticker (category m) r None w2) as [[u|e] w3]; reflexivity. }
    repeat split.
    + pose proof (collaborator_called m ticker kw w1) as Hc.
      rewrite Hfetch in Hc. simpl in Hc. rewrite Hc.
      pose proof (keeps_get ticker (category m) w) as [Hk _].
      rewrite Hget in Hk. simpl in Hk. rewrite Hk. reflexivity.
    + exact Hrun.
    + intros Hret. rewrite Hrun. simpl.
      destruct Hret as [Henc | Hconn].
      * rewrite (set_unencodable _ _ _ _ _ Henc). reflexivity.
      * rewrite (set_returns_when_connected _ _ _ _ _ Hconn). reflexivity.
    + intros b Hf Henc. rewrite Hrun. simpl.
      destruct (set_writes_row ticker (category m) r None b w2 Hf Henc
                  (default_expiry_fits m)) as (w3 & Hs & Ht & _).
      rewrite Hs. simpl. rewrite Ht. apply lookup_insert_eq.
Qed.

End CacheAside.

(** A miss, a successful fetch, and a store that refuses the connection of
    the write: the caller gets the error, not the record. *)
Lemma cache_write_connect_failure_propagates :
  let w := with_faults [false; false; true] Demo.fresh in
  let fresh_record := VStockData (H := Demo.models) x2a in
  fst (Cache.get "MSFT" "stock_data" w) = Ok None /\
  fst (collaborator PriceHistory "MSFT" Demo.kw (snd (Cache.get "MSFT" "stock_data" w)))
    = Ok fresh_record /\
  fst (CachedDataFetcher.fetch_stock_price_history true "MSFT" "1y" "1d" w)
    = Raise DuckDBError /\
  fst (CachedDataFetcher.fetch_stock_price_history true "MSFT" "1y" "1d" w)
    <> Ok fresh_record.
Proof. vm_compute. repeat split; discriminate. Qed.

(** First request for MSFT on an empty cache: a miss, one call of the
    fetcher, the record returned and written with 900 seconds to live.
    Second request: a hit, no further call. *)
Lemma read_through_cache_aside_witness :
  let first := single_fetch true PriceHistory "MSFT" Demo.kw Demo.fresh in
  let second := single_fetch true PriceHistory "MSFT" Demo.kw (snd first) in
  fst first = Ok (VStockData (H := Demo.models) x2a) /\
  table (snd first) !! _make_key "MSFT" "stock_data"
    = Some (mkRow [x01; x2a] "stock_data" 0 900) /\
  fst second = Ok (VStockData (H := Demo.models) x2a) /\
  calls (snd second) = [(PriceHistory, "MSFT")].
Proof.
  intros first second.
  destruct (read_through_cache_aside (H0 := Demo.externals)
              PriceHistory "MSFT" Demo.kw Demo.fresh) as [_ Hmiss].
  assert (E1 : Cache.get "MSFT" (category PriceHistory) Demo.fresh =
               (Ok None, snd (Cache.get "MSFT" "stock_data" Demo.fresh)))
    by (vm_compute; reflexivity).
  assert (E2 : collaborator PriceHistory "MSFT" Demo.kw
                 (snd (Cache.get "MSFT" "stock_data" Demo.fresh)) =
               (Ok (VStockData (H := Demo.models) x2a),
                snd (collaborator PriceHistory "MSFT" Demo.kw
                       (snd (Cache.get "MSFT" "stock_data" Demo.fresh)))))
    by (vm_compute; reflexivity).
  destruct (Hmiss _ _ _ E1 E2) as (_ & _ & Hret & Hrow).
  split; [apply Hret; right; vm_compute; reflexivity |].
  split; [apply (Hrow [x01; x2a]); vm_compute; reflexivity |].
  destruct (read_through_cache_aside (H0 := Demo.externals)
              PriceHistory "MSFT" Demo.kw (snd first)) as [Hhit _].
  assert (E3 : Cache.get "MSFT" (category PriceHistory) (snd first) =
               (Ok (Some (VStockData (H := Demo.models) x2a)),
                snd (Cache.get "MSFT" "stock_data" (snd first))))
    by (vm_compute; reflexivity).
  destruct (Hhit _ _ E3) as (Hsecond & _).
  split; [exact (f_equal fst Hsecond) |].
  vm_compute; reflexivity.
Defined.

Section Bundle.

Context `{Externals}.

Ltac run_fetcher :=
  unfold DataFetcher.fetch_all_data, DataFetcher.fetch_stock_price_history,
    DataFetcher.fetch_fundamental_data, DataFetcher.fetch_options_chain,
    DataFetcher.fetch_analyst_recommendations, DataFetcher.fetch_news_headlines,
    DataFetcher.called, DataFetcher.ask; run.

(** The completeness check looks at the two mandatory components only. *)
Lemma is_complete_spec (md : MarketData) :
  is_complete md = true <-> stock_data md <> None /\ fundamentals md <> None.
Proof.
  unfold is_complete. rewrite andb_true_iff, !bool_decide_eq_true. reflexivity.
Qed.

(** C6. Bundle partial failure.  [fetch_all_data] always returns a bundle,
    whatever the provider answers.  The completeness check depends on
    [stock_data] and [fundamentals] only.  If the price history and the
    fundamentals are fetched, both are in the bundle and the check reports
    true, whatever becomes of the other categories; a failing options fetch
    leaves [options_chain] absent, a failing ratings fetch leaves
    [analyst_ratings] absent. *)
Theorem fetch_all_partial_failure ticker w :
  (exists md, fst (DataFetcher.fetch_all_data ticker w) = Ok md) /\
  (forall md : MarketData,
     is_complete md = true <-> stock_data md <> None /\ fundamentals md <> None) /\
  (forall s f p1 p2,
     yf_stock_price_history ticker "1y" "1d" (provider w) = (Ok s, p1) ->
     yf_fundamental_data ticker p1 = (Ok f, p2) ->
     exists md,
       fst (DataFetcher.fetch_all_data ticker w) = Ok md /\
       stock_data md = Some s /\
       fundamentals md = Some f /\
       is_complete md = true /\
       (forall e p3,
          yf_options_chain ticker p2 = (Raise e, p3) -> options_chain md = None) /\
       (forall o p3 e p4 p5,
          yf_options_chain ticker p2 = (o, p3) ->
          yf_news_headlines ticker 20 p3 = (e, p4) ->
          forall x, yf_analyst_recommendations ticker p4 = (Raise x, p5) ->
          analyst_ratings md = None)).
Proof.
  split; [|split].
  - destruct w as [t c fl n d l p cs]. run_fetcher.
    destruct (yf_stock_price_history ticker "1y" "1d" p) as [[s|e1] p1]; simpl;
    destruct (yf_fundamental_data ticker p1) as [[f|e2] p2]; simpl;
    destruct (yf_options_chain ticker p2) as [[o|e3] p3]; simpl;
    destruct (yf_news_headlines ticker 20 p3) as [[ns|e4] p4]; simpl;
    destruct (yf_analyst_recommendations ticker p4) as [[a|e5] p5]; simpl;
    eexists; reflexivity.
  - apply is_complete_spec.
  - intros s f p1 p2 Hs Hf.
    destruct w as [t c fl n d l p cs]. simpl in Hs. run_fetcher.
    rewrite Hs. simpl. rewrite Hf. simpl.
    destruct (yf_options_chain ticker p2) as [[o|e3] p3] eqn:E3; simpl;
    destruct (yf_news_headlines ticker 20 p3) as [[ns|e4] p4] eqn:E4; simpl;
    destruct (yf_analyst_recommendations ticker p4) as [[a|e5] p5] eqn:E5; simpl;
    eexists; (split; [reflexivity|]); simpl;
    (split; [reflexivity|]); (split; [reflexivity|]);
    (split; [apply is_complete_spec; simpl; split; discriminate|]);
    split; intros; congruence.
Qed.

End Bundle.

(** The provider of the small instance has no options for AAPL. *)
Lemma fetch_all_partial_failure_witness :
  exists md : @MarketData Demo.models,
    fst (DataFetcher.fetch_all_data (H0 := Demo.externals) "AAPL" Demo.fresh) = Ok md /\
    stock_data md = Some x2a /\
    fundamentals md = Some x07 /\
    options_chain md = None /\
    is_complete md = true.
Proof.
  destruct (fetch_all_partial_failure (H0 := Demo.externals) "AAPL" Demo.fresh)
    as (_ & _ & Hpartial).
  destruct (Hpartial x2a x07 1%nat 2%nat eq_refl eq_refl)
    as (md & Hmd & Hs & Hf & Hc & Ho & _).
  exists md. repeat split; try assumption.
  apply (Ho (ProviderError "no options") 3%nat). reflexivity.
Defined.

Section NewsNeverRaises.

Context `{Externals}.

(** The only exception a store operation of this shape lets through is the
    one raised by [duckdb.connect]. *)
Lemma guarded_raises_connect {A} (body : M A) (handler : exn -> M A) w e :
  (forall e' w', exists a, fst (handler e' w') = Ok a) ->
  fst ((duckdb_connect ;; finally (try_except body handler) conn_close) w) = Raise e ->
  fst (duckdb_connect w) = Raise e.
Proof.
  intros Hh. unfold bind at 1.
  destruct (duckdb_connect w) as [[[]|e0] w1] eqn:E; simpl.
  - unfold finally, try_except.
    destruct (body w1) as [[a|e1] w2]; simpl; [discriminate|].
    destruct (Hh e1 w2) as [a Ha]. destruct (handler e1 w2) as [r w3].
    simpl in *. subst r. discriminate.
  - intros [= ->]. reflexivity.
Qed.

Lemma get_raises_connect ticker dt w e :
  fst (Cache.get ticker dt w) = Raise e -> fst (duckdb_connect w) = Raise e.
Proof.
  apply guarded_raises_connect. intros e' w'. eexists. reflexivity.
Qed.

Lemma set_raises_connect ticker dt data expiry w e :
  fst (Cache.set ticker dt data expiry w) = Raise e ->
  fst (duckdb_connect w) = Raise e.
Proof.
  unfold Cache.set. destruct (pickle_dumps data); [|discriminate].
  apply guarded_raises_connect. intros e' w'. eexists. reflexivity.
Qed.

(** The fetcher's news method turns every outcome of the provider into a
    list. *)
Lemma fetch_news_headlines_total ticker n w :
  DataFetcher.fetch_news_headlines ticker n w =
  let w1 :=
    with_log (log w ++ [(INFO, Fetching "news headlines" ticker)])
      (with_calls (calls w ++ [(NewsHeadlines, ticker)]) w) in
  match yf_news_headlines ticker n (provider w) with
  | (Ok l, p) => (Ok l, with_provider p w1)
  | (Raise e, p) =>
      (Ok [],
       with_log (log w1 ++ [(ERROR, ErrorFetching "news" ticker e)])
         (with_provider p w1))
  end.
Proof.
  destruct w as [t c f k d l p cs].
  unfold DataFetcher.fetch_news_headlines, DataFetcher.called, DataFetcher.ask.
  run. destruct (yf_news_headlines ticker n p) as [[ns|e] p']; reflexivity.
Qed.

(** C10. The news method of the fetcher never raises: it returns a list
    whatever the provider does, and the empty list, after an ERROR line in
    the log, when the provider fails.  Hence the news operation of the
    wrapper never raises without the cache, and with the cache the only
    exception it can raise is the one of a refused store connection, raised
    by [Cache.get] or [Cache.set].  The other four single-category
    operations re-raise the provider's exception: from the fetcher, from the
    wrapper without the cache, and from the wrapper after a cache miss. *)
Theorem news_fetch_never_raises ticker kw w :
  (exists l, fst (DataFetcher.fetch_news_headlines ticker (max_items kw) w) = Ok l) /\
  (forall e p,
     yf_news_headlines ticker (max_items kw) (provider w) = (Raise e, p) ->
     fst (DataFetcher.fetch_news_headlines ticker (max_items kw) w) = Ok [] /\
     log (snd (DataFetcher.fetch_news_headlines ticker (max_items kw) w)) =
       (log w ++ [(INFO, Fetching "news headlines" ticker);
                  (ERROR, ErrorFetching "news" ticker e)])%list) /\
  (exists v, fst (single_fetch false NewsHeadlines ticker kw w) = Ok v) /\
  (forall e,
     fst (single_fetch true NewsHeadlines ticker kw w) = Raise e ->
     e = DuckDBError /\
     (fst (Cache.get ticker "news" w) = Raise e \/
      exists d w', fst (Cache.set ticker "news" d None w') = Raise e)) /\
  (forall m e,
     m <> NewsHeadlines ->
     provider_answer m ticker kw (provider w) = Raise e ->
     fst (collaborator m ticker kw w) = Raise e /\
     fst (single_fetch false m ticker kw w) = Raise e /\
     (forall w0,
        Cache.get ticker (category m) w0 = (Ok None, w) ->
        fst (single_fetch true m ticker kw w0) = Raise e)).
Proof.
  split; [|split; [|split; [|split]]].
  - rewrite fetch_news_headlines_total. simpl.
    destruct (yf_news_headlines ticker (max_items kw) (provider w)) as [[l|e] p];
      eexists; reflexivity.
  - intros e p Hp. rewrite fetch_news_headlines_total. simpl. rewrite Hp. simpl.
    split; [reflexivity|]. rewrite <- app_assoc. reflexivity.
  - unfold single_fetch, CachedDataFetcher.fetch_news_headlines,
      CachedDataFetcher.read_through.
    unfold bind, ret. rewrite fetch_news_headlines_total. simpl.
    destruct (yf_news_headlines ticker (max_items kw) (provider w)) as [[l|e] p];
      eexists; reflexivity.
  - intros e. unfold single_fetch, CachedDataFetcher.fetch_news_headlines,
      CachedDataFetcher.read_through.
    unfold bind at 1.
    destruct (Cache.get ticker "news" w) as [[[v|]|e0] w1] eqn:Eg; simpl.
    + discriminate.
    + unfold bind at 1. unfold bind at 1.
      rewrite fetch_news_headlines_total. simpl.
      destruct (yf_news_headlines ticker (max_items kw) (provider w1)) as [[l|e1] p];
        unfold ret at 1; unfold bind;
        match goal with
        | |- context [Cache.set ticker "news" ?d None ?w'] =>
            destruct (Cache.set ticker "news" d None w') as [[u|e2] w3] eqn:Es;
            simpl; [discriminate|];
            intros [= ->]; split;
            [ pose proof (set_raises_connect ticker "news" d None w' e) as Hc;
              rewrite Es in Hc; specialize (Hc eq_refl);
              revert Hc; clear; destruct w' as [t c f k d0 l0 p0 cs0]; run;
              destruct f as [|[] fs]; simpl; congruence
            | right; exists d, w'; rewrite Es; reflexivity ]
        end.
    + intros [= ->]. split; [|left; reflexivity].
      pose proof (get_raises_connect ticker "news" w e) as Hc.
      rewrite Eg in Hc. specialize (Hc eq_refl).
      revert Hc. clear. destruct w as [t c f k d0 l0 p0 cs0]. run.
      destruct f as [|[] fs]; simpl; congruence.
  - intros m e Hm Hp.
    assert (Hcol : forall w', provider w' = provider w ->
                     fst (collaborator m ticker kw w') = Raise e).
    { intros w' Hw'. destruct w' as [t c f k d l p cs]. simpl in Hw'. subst p.
      destruct m; try congruence; simpl in Hp;
        unfold collaborator, DataFetcher.fetch_stock_price_history,
          DataFetcher.fetch_fundamental_data, DataFetcher.fetch_options_chain,
          DataFetcher.fetch_analyst_recommendations, DataFetcher.called,
          DataFetcher.ask; run;
        [ destruct (yf_stock_price_history ticker (period kw) (interval kw)
                      (provider w)) as [[a|e'] p']
        | destruct (yf_fundamental_data ticker (provider w)) as [[a|e'] p']
        | destruct (yf_options_chain ticker (provider w)) as [[a|e'] p']
        | destruct (yf_analyst_recommendations ticker (provider w)) as [[a|e'] p'] ];
        simpl in *; congruence. }
    split; [apply Hcol; reflexivity|]. split.
    + rewrite single_fetch_read_through. unfold CachedDataFetcher.read_through.
      unfold bind at 1. unfold ret at 1. unfold bind at 1.
      specialize (Hcol w eq_refl).
      destruct (collaborator m ticker kw w) as [[r|e'] w']; simpl in *; congruence.
    + intros w0 Hget. rewrite single_fetch_read_through.
      unfold CachedDataFetcher.read_through.
      unfold bind at 1. rewrite Hget. unfold bind at 1.
      specialize (Hcol w eq_refl).
      destruct (collaborator m ticker kw w) as [[r|e'] w']; simpl in *; congruence.
Qed.

End NewsNeverRaises.

(** The provider of the small instance fails on news and on options. *)
Lemma news_fetch_never_raises_witness :
  fst (DataFetcher.fetch_news_headlines (H0 := Demo.externals) "AAPL" 20 Demo.fresh)
    = Ok [] /\
  fst (single_fetch (H0 := Demo.externals) false OptionsChainM "AAPL" Demo.kw Demo.fresh)
    = Raise (ProviderError "no options").
Proof.
  destruct (news_fetch_never_raises (H0 := Demo.externals) "AAPL" Demo.kw Demo.fresh)
    as (_ & Hnews & _ & _ & Hothers).
  split.
  - apply (Hnews (ProviderError "no news") 1%nat). reflexivity.
  - apply (Hothers OptionsChainM (ProviderError "no options")).
    + discriminate.
    + reflexivity.
Defined.

(** ** Keys *)

Lemma ascii_upper_colon c : Ascii.eqb (ascii_upper c) ":" = Ascii.eqb c ":".
Proof. destruct c as [[] [] [] [] [] [] [] []]; reflexivity. Qed.

Lemma ascii_upper_idempotent c : ascii_upper (ascii_upper c) = ascii_upper c.
Proof. destruct c as [[] [] [] [] [] [] [] []]; reflexivity. Qed.

Lemma no_colon_upper t : no_colon (upper t) = no_colon t.
Proof.
  induction t as [|c t IH]; [reflexivity|].
  change (upper (String c t)) with (String (ascii_upper c) (upper t)).
  simpl. rewrite ascii_upper_colon, IH. reflexivity.
Qed.

Lemma upper_idempotent t : upper (upper t) = upper t.
Proof.
  induction t as [|c t IH]; [reflexivity|].
  change (upper (String c t)) with (String (ascii_upper c) (upper t)).
  change (upper (String (ascii_upper c) (upper t)))
    with (String (ascii_upper (ascii_upper c)) (upper (upper t))).
  rewrite ascii_upper_idempotent, IH. reflexivity.
Qed.

(** A key is cut at its first colon: when the tickers have none, the key
    determines both of its parts. *)
Lemma key_split u1 : forall u2 c1 c2,
  no_colon u1 = true -> no_colon u2 = true ->
  u1 +:+ ":" +:+ c1 = u2 +:+ ":" +:+ c2 -> u1 = u2 /\ c1 = c2.
Proof.
  induction u1 as [|a u1 IH]; intros [|b u2] c1 c2 H1 H2 E; simpl in *.
  - injection E as E. auto.
  - injection E as Ea E. subst b. simpl in H2. discriminate.
  - injection E as Ea E. subst a. simpl in H1. discriminate.
  - injection E as Ea E. subst b.
    apply andb_true_iff in H1 as [_ H1]. apply andb_true_iff in H2 as [_ H2].
    destruct (IH u2 c1 c2 H1 H2 E) as [-> ->]. auto.
Qed.

Lemma make_key_inj t1 c1 t2 c2 :
  no_colon t1 = true -> no_colon t2 = true ->
  (_make_key t1 c1 = _make_key t2 c2 <-> upper t1 = upper t2 /\ c1 = c2).
Proof.
  intros H1 H2. unfold _make_key. split.
  - apply key_split; rewrite no_colon_upper; assumption.
  - intros [-> ->]. reflexivity.
Qed.

Lemma default_expiry_bounds dt :
  0 <= Cache._get_default_expiry dt /\
  fits_INTEGER (Cache._get_default_expiry dt) = true.
Proof.
  unfold Cache._get_default_expiry, Cache.expiry_map. cbn [Cache.dict_get].
  repeat match goal with
         | |- context [String.eqb ?a ?b] => destruct (String.eqb a b)
         end; split; (reflexivity || discriminate).
Qed.

Section Keys.

Context `{Externals}.

(** The operations look at the ticker through the key only. *)
Lemma get_upper t t' c w :
  upper t = upper t' -> Cache.get t c w = Cache.get t' c w.
Proof.
  intros E. unfold Cache.get, Cache.delete, _make_key. rewrite E. reflexivity.
Qed.

(** A write touches the row of its own key only. *)
Lemma set_other_key t c data expiry w k :
  k <> _make_key t c ->
  table (snd (Cache.set t c data expiry w)) !! k = table w !! k.
Proof.
  intros Hk. destruct w as [tb cl f n d l p cs]. unfold Cache.set.
  destruct (pickle_dumps data) as [b|]; [|reflexivity].
  run.
  destruct f as [|[] [|[] fs]]; simpl; try reflexivity;
    destruct (fits_INTEGER _); simpl; try reflexivity;
    apply lookup_insert_ne; congruence.
Qed.

(** A write over an existing row replaces it: the table does not grow. *)
Lemma set_replaces t c data expiry w row :
  table w !! _make_key t c = Some row ->
  size (table (snd (Cache.set t c data expiry w))) = size (table w).
Proof.
  intros Hrow. destruct w as [tb cl f n d l p cs]. simpl in Hrow. unfold Cache.set.
  destruct (pickle_dumps data) as [b|]; [|reflexivity].
  run.
  destruct f as [|[] [|[] fs]]; simpl; try reflexivity;
    destruct (fits_INTEGER _); simpl; try reflexivity;
    apply map_size_insert_Some; rewrite Hrow; eauto.
Qed.

(** A write with the default TTL keeps a healthy store healthy and does not
    move the clock. *)
Lemma set_default_keeps ticker dt data w :
  faults w = [] ->
  faults (snd (Cache.set ticker dt data None w)) = [] /\
  clock (snd (Cache.set ticker dt data None w)) = clock w.
Proof.
  intros Hf. destruct (pickle_dumps data) as [b|] eqn:Eb.
  - destruct (set_writes_row ticker dt data None b w Hf Eb
                (proj2 (default_expiry_bounds dt)))
      as (w' & Hs & _ & Hc & Hf' & _).
    rewrite Hs. simpl. auto.
  - rewrite (set_unencodable _ _ _ _ _ Eb). simpl. auto.
Qed.

End Keys.

Section KeyIsolation.

Context `{Externals}.

(** C7, amended. Key uniqueness and normalization, for ASCII tickers.
    Every operation uses the key [upper(ticker) + ":" + category]; the key
    of an ASCII ticker is the key of its uppercase form, and the operations
    do not tell apart two spellings with the same uppercase form.  For ASCII
    tickers without a colon, two keys are equal exactly when the categories
    and the uppercase tickers are.  A write for an ASCII ticker leaves the
    row of every other key as it was, and over an existing row it does not
    add a row.
    Hence on a healthy store, for ASCII tickers without a colon: after a
    record is written under one pair and anything under a different pair, a
    read of the first pair, in any ASCII spelling of its ticker, returns the
    first record. *)
Theorem key_isolation_and_normalization :
  (forall t c, _make_key t c = upper t +:+ ":" +:+ c) /\
  (forall t c, is_ascii t = true -> _make_key (upper t) c = _make_key t c) /\
  (forall t t' c w, upper t = upper t' -> Cache.get t c w = Cache.get t' c w) /\
  (forall t1 c1 t2 c2,
     is_ascii t1 = true -> is_ascii t2 = true ->
     no_colon t1 = true -> no_colon t2 = true ->
     (_make_key t1 c1 = _make_key t2 c2 <-> upper t1 = upper t2 /\ c1 = c2)) /\
  (forall t1 c1 t2 c2 y expiry w,
     is_ascii t1 = true -> is_ascii t2 = true ->
     _make_key t1 c1 <> _make_key t2 c2 ->
     table (snd (Cache.set t2 c2 y expiry w)) !! _make_key t1 c1 =
     table w !! _make_key t1 c1) /\
  (forall t c x expiry w row,
     is_ascii t = true ->
     table w !! _make_key t c = Some row ->
     size (table (snd (Cache.set t c x expiry w))) = size (table w)) /\
  (forall t1 t1' c1 x b t2 c2 y w,
     faults w = [] ->
     is_ascii t1 = true -> is_ascii t1' = true -> is_ascii t2 = true ->
     no_colon t1 = true -> no_colon t2 = true ->
     (upper t1, c1) <> (upper t2, c2) ->
     upper t1' = upper t1 ->
     pickle_dumps x = Some b -> pickle_loads b = Some x ->
     fst (Cache.get t1' c1
            (snd (Cache.set t2 c2 y None (snd (Cache.set t1 c1 x None w)))))
     = Ok (Some x)).
Proof.
  split; [reflexivity|].
  split; [intros t c _; unfold _make_key; rewrite upper_idempotent; reflexivity|].
  split; [intros t t' c w; apply get_upper|].
  split; [intros t1 c1 t2 c2 _ _; apply make_key_inj|].
  split; [intros t1 c1 t2 c2 y expiry w _ _ Hne; apply set_other_key; exact Hne|].
  split; [intros t c x expiry w row _; apply set_replaces|].
  intros t1 t1' c1 x b t2 c2 y w Hf _ _ _ H1 H2 Hne Hup Henc Hdec.
  destruct (default_expiry_bounds c1) as [Hpos Hfit].
  destruct (set_writes_row t1 c1 x None b w Hf Henc Hfit)
    as (w1 & Hs1 & Ht1 & Hc1 & Hf1 & _).
  rewrite Hs1. simpl.
  destruct (set_default_keeps t2 c2 y w1 Hf1) as [Hf2 Hc2].
  assert (Hkey : _make_key t1 c1 <> _make_key t2 c2).
  { intros E. apply (make_key_inj t1 c1 t2 c2 H1 H2) in E as [E1 E2].
    apply Hne. congruence. }
  pose proof (set_other_key t2 c2 y None w1 _ Hkey) as Hrow.
  rewrite Ht1, lookup_insert_eq in Hrow.
  rewrite (get_upper t1' t1 c1 _ Hup).
  destruct (get_fresh t1 c1 _ x _ Hf2 Hrow Hdec) as (w3 & Hg & _).
  - unfold expired_at. simpl. rewrite Hc2, Hc1. apply Z.ltb_ge.
    unfold timedelta. lia.
  - rewrite Hg. reflexivity.
Qed.

End KeyIsolation.

(** The scenario of the specification: prices under "AAPL", news under
    "aapl", the prices read back under "aapl". *)
Lemma key_isolation_and_normalization_witness :
  let x := VStockData (H := Demo.models) x2a in
  let y := VNews (H := Demo.models) [x01; x02] in
  fst (Cache.get "aapl" "price"
         (snd (Cache.set "aapl" "news" y None
                 (snd (Cache.set "AAPL" "price" x None Demo.fresh)))))
  = Ok (Some x).
Proof.
  destruct (key_isolation_and_normalization (H0 := Demo.externals))
    as (_ & _ & _ & _ & _ & _ & Hscenario).
  apply (Hscenario "AAPL" "aapl" "price" _ [x01; x2a] "aapl" "news");
    try reflexivity.
  vm_compute. congruence.
Defined.

(** Two different pairs with one key: the second write replaces the row of
    the first, and a read of the first pair returns the second record. *)
Lemma colon_keys_collide :
  let x := VStockData (H := Demo.models) x2a in
  let y := VNews (H := Demo.models) [x01; x02] in
  (upper "A", "B:C") <> (upper "A:B", "C") /\
  _make_key "A" "B:C" = _make_key "A:B" "C" /\
  fst (Cache.get "A" "B:C"
         (snd (Cache.set "A:B" "C" y None
                 (snd (Cache.set "A" "B:C" x None Demo.fresh)))))
  = Ok (Some y) /\
  fst (Cache.get "A" "B:C"
         (snd (Cache.set "A:B" "C" y None
                 (snd (Cache.set "A" "B:C" x None Demo.fresh)))))
  <> Ok (Some x).
Proof. vm_compute. repeat split; congruence. Qed.

(** ** The sweep and the statistics *)

(** Counting in the list of rows and in the table agree. *)
Lemma length_filter_map_to_list (P : string * Row -> Prop)
    `{!forall x, Decision (P x)} (m : gmap string Row) :
  length (filter P (map_to_list m)) = size (filter P m).
Proof.
  induction m as [|k x m Hk IH] using map_ind.
  - rewrite map_to_list_empty, map_filter_empty, map_size_empty. reflexivity.
  - rewrite (map_to_list_insert m k x Hk), filter_cons.
    destruct (decide (P (k, x))) as [HP|HP].
    + rewrite map_filter_insert_True by exact HP.
      rewrite map_size_insert_None.
      * simpl. rewrite IH. reflexivity.
      * apply map_lookup_filter_None. left. exact Hk.
    + rewrite map_filter_insert_False by exact HP.
      rewrite delete_id by exact Hk. exact IH.
Qed.

(** The rows split into those a predicate holds of and the others. *)
Lemma size_filter_complement (P : string * Row -> Prop)
    `{!forall x, Decision (P x)} (m : gmap string Row) :
  size m = (size (filter P m) + size (filter (fun kr => ~ P kr) m))%nat.
Proof.
  rewrite <- map_size_disj_union by apply map_disjoint_filter_complement.
  rewrite map_filter_union_complement. reflexivity.
Qed.

(** Deleting, key by key, the rows of a list that satisfy a test. *)
Lemma foldl_delete_lookup (test : Row -> bool) (l : list (string * Row)) :
  forall (t : gmap string Row) k,
    foldl (fun t kr => if test kr.2 then base.delete kr.1 t else t) t l !! k =
    if bool_decide (Exists (fun kr => kr.1 = k /\ test kr.2 = true) l)
    then None else t !! k.
Proof.
  induction l as [|[k' r'] l IH]; intros t k; cbn [foldl fst snd].
  - rewrite bool_decide_eq_false_2; [reflexivity|]. rewrite Exists_nil. tauto.
  - rewrite IH.
    destruct (bool_decide (Exists (fun kr => kr.1 = k /\ test kr.2 = true) l)) eqn:El.
    + apply bool_decide_eq_true in El.
      rewrite bool_decide_eq_true_2; [reflexivity|].
      apply Exists_cons. right. exact El.
    + apply bool_decide_eq_false in El.
      destruct (test r') eqn:Er.
      * destruct (decide (k' = k)) as [->|Hne].
        -- rewrite lookup_delete_eq.
           rewrite bool_decide_eq_true_2; [reflexivity|].
           apply Exists_cons. left. simpl. auto.
        -- rewrite lookup_delete_ne by exact Hne.
           rewrite bool_decide_eq_false_2; [reflexivity|].
           rewrite Exists_cons. simpl. intros [[Hk _]|Hl]; [congruence | auto].
      * rewrite bool_decide_eq_false_2; [reflexivity|].
        rewrite Exists_cons. simpl. intros [[_ Hr]|Hl]; [congruence | auto].
Qed.

(** Over the rows of the table itself this is the filter. *)
Lemma foldl_delete_filter (test : Row -> bool) (t : gmap string Row) :
  foldl (fun t kr => if test kr.2 then base.delete kr.1 t else t) t (map_to_list t)
  = filter (fun kr => test kr.2 = false) t.
Proof.
  apply map_eq. intros k. rewrite foldl_delete_lookup.
  destruct (t !! k) as [r|] eqn:Ek.
  - destruct (test r) eqn:Er.
    + rewrite bool_decide_eq_true_2.
      * symmetry. apply map_lookup_filter_None. right.
        intros r0 Hr0. simpl. congruence.
      * apply Exists_exists. exists (k, r).
        split; [apply elem_of_map_to_list; exact Ek | simpl; auto].
    + rewrite bool_decide_eq_false_2.
      * symmetry. apply map_lookup_filter_Some. split; [exact Ek | exact Er].
      * rewrite Exists_exists. intros ([k0 r0] & Hin & Hk & Hr0). simpl in *.
        subst k0. apply elem_of_map_to_list in Hin. congruence.
  - match goal with |- (if ?b then _ else _) = _ => destruct b end;
      symmetry; apply map_lookup_filter_None; left; exact Ek.
Qed.

Section Sweep.

Context `{Externals}.

(** The loop of the sweep on a healthy store: every expired row of the list
    is deleted and counted. *)
Lemma clear_expired_loop_healthy (l : list (string * Row)) :
  forall n w,
    faults w = [] ->
    Cache.clear_expired_loop l n w =
    (Ok (n + Z.of_nat (length (filter (fun kr => expired_at (clock w) kr.2 = true) l))),
     with_table
       (foldl (fun t kr => if expired_at (clock w) kr.2 then base.delete kr.1 t else t)
          (table w) l) w).
Proof.
  induction l as [|[k r] l IH]; intros n w Hf.
  - destruct w as [t c f m d lg p cs]. simpl. unfold ret, with_table. simpl.
    rewrite Z.add_0_r. reflexivity.
  - destruct w as [t c f m d lg p cs]. simpl in Hf. subst f.
    cbn [Cache.clear_expired_loop]. rewrite filter_cons. cbn [foldl fst snd].
    unfold Cache._is_expired, datetime_now, delete_by_key, duckdb_call, bind, ret.
    simpl.
    change (timestamp r + timedelta (expiry_seconds r) <? c) with (expired_at c r).
    destruct (expired_at c r) eqn:Er; simpl.
    + rewrite IH by reflexivity. simpl. f_equal. f_equal. lia.
    + rewrite IH by reflexivity. reflexivity.
Qed.

(** What the sweep does on a healthy store. *)
Lemma clear_expired_healthy w :
  faults w = [] ->
  Cache.clear_expired w =
  (Ok None,
   with_log
     (log w ++
      [(INFO,
        ClearedExpired
          (Z.of_nat (size (filter (fun kr => expired_at (clock w) kr.2 = true) (table w)))))])
     (with_table (filter (fun kr => expired_at (clock w) kr.2 = false) (table w)) w)).
Proof.
  intros Hf. unfold Cache.clear_expired.
  unfold duckdb_connect, select_all, duckdb_call, conn_commit, conn_close, finally,
    try_except, logger.
  unfold bind at 1 2. rewrite Hf. unfold bind at 1 2. cbn [faults with_conns].
  rewrite Hf. unfold bind at 1.
  rewrite clear_expired_loop_healthy by exact Hf.
  cbn [clock table with_conns].
  rewrite foldl_delete_filter, length_filter_map_to_list.
  destruct w as [t c f m d lg p cs]. reflexivity.
Qed.

(** C8, amended. Bulk expiry sweep.  On a healthy store [clear_expired]
    leaves exactly the rows that are not expired at the time of the sweep:
    every expired row is gone, every other row is as it was.  The number of
    rows removed, the size of the table before minus its size after, is
    written to the log at level INFO; the value returned is [None]. *)
Theorem clear_expired_sweeps w :
  faults w = [] ->
  let w' := snd (Cache.clear_expired w) in
  fst (Cache.clear_expired w) = Ok None /\
  table w' = filter (fun kr => expired_at (clock w) kr.2 = false) (table w) /\
  (forall k r,
     table w !! k = Some r -> expired_at (clock w) r = true -> table w' !! k = None) /\
  (forall k r,
     table w !! k = Some r -> expired_at (clock w) r = false ->
     table w' !! k = Some r) /\
  (forall k, table w !! k = None -> table w' !! k = None) /\
  log w' =
    (log w ++
     [(INFO, ClearedExpired (Z.of_nat (size (table w)) - Z.of_nat (size (table w'))))])%list.
Proof.
  intros Hf w'. subst w'. rewrite (clear_expired_healthy w Hf).
  cbn [fst snd]. destruct w as [t c f m d lg p cs]. cbn.
  split; [reflexivity|]. split; [reflexivity|].
  split; [|split; [|split]].
  - intros k r Hk Hr. apply map_lookup_filter_None. right.
    intros r0 Hr0. simpl. congruence.
  - intros k r Hk Hr. apply map_lookup_filter_Some. split; assumption.
  - intros k Hk. apply map_lookup_filter_None. left. exact Hk.
  - do 4 f_equal.
    rewrite (size_filter_complement (fun kr => expired_at c kr.2 = true) t).
    assert (E : filter (fun kr : string * Row => ~ expired_at c kr.2 = true) t =
                filter (fun kr : string * Row => expired_at c kr.2 = false) t).
    { apply map_filter_ext. intros k r _. simpl.
      destruct (expired_at c r); split; congruence. }
    rewrite E. lia.
Qed.

End Sweep.

(** One row, expired: the sweep removes it and returns [None], not 1. *)
Lemma clear_expired_returns_no_count :
  let w :=
    advance 3000000
      (snd (Cache.set "TSLA" "fundamentals" (VFundamentals (H := Demo.models) x07)
              (Some 2) Demo.fresh)) in
  size (table w) = 1%nat /\
  size (table (snd (Cache.clear_expired w))) = 0%nat /\
  fst (Cache.clear_expired w) = Ok None /\
  fst (Cache.clear_expired w) <> Ok (Some 1).
Proof. vm_compute. repeat split; congruence. Qed.

(** The same sweep, through the theorem: the row is gone and the log says
    that one row was cleared. *)
Lemma clear_expired_sweeps_witness :
  let w :=
    advance 3000000
      (snd (Cache.set "TSLA" "fundamentals" (VFundamentals (H := Demo.models) x07)
              (Some 2) Demo.fresh)) in
  table (snd (Cache.clear_expired w)) !! _make_key "TSLA" "fundamentals" = None /\
  log (snd (Cache.clear_expired w)) =
    (log w ++ [(INFO, ClearedExpired 1)])%list.
Proof.
  intros w.
  destruct (clear_expired_sweeps (H0 := Demo.externals) w eq_refl)
    as (_ & _ & Hgone & _ & _ & Hlog).
  split.
  - apply (Hgone _ (mkRow [x02; x07] "fundamentals" 0 2)); vm_compute; reflexivity.
  - rewrite Hlog. vm_compute. reflexivity.
Defined.

Section Statistics.

Context `{Externals}.

(** Counting the expired rows reads the clock and nothing else. *)
Lemma count_expired_run (l : list (string * Row)) w :
  Cache.count_expired l w =
  (Ok (Z.of_nat (length (filter (fun kr => expired_at (clock w) kr.2 = true) l))), w).
Proof.
  induction l as [|[k r] l IH].
  - reflexivity.
  - cbn [Cache.count_expired]. rewrite filter_cons. cbn [snd].
    unfold Cache._is_expired, datetime_now. unfold bind at 1 2. unfold ret at 1.
    unfold bind at 1. rewrite IH. unfold ret.
    change (timestamp r + timedelta (expiry_seconds r) <? clock w)
      with (expired_at (clock w) r).
    destruct (expired_at (clock w) r) eqn:Er.
    + rewrite decide_True by reflexivity. cbn [length]. do 2 f_equal. lia.
    + rewrite decide_False by discriminate. reflexivity.
Qed.

(** The statistics never write to the table, whatever the store does. *)
Lemma get_stats_keeps_table w : table (snd (Cache.get_stats w)) = table w.
Proof.
  unfold Cache.get_stats, duckdb_connect, select_count, select_all, duckdb_call,
    conn_close, finally, try_except, logger.
  unfold bind at 1 2. destruct w as [t c f m d lg p cs]. simpl.
  destruct f as [|[] f1]; simpl; try reflexivity;
    unfold bind at 1; simpl;
    try (destruct f1 as [|[] f2]; simpl; try reflexivity);
    unfold bind at 1; simpl;
    try (destruct f2 as [|[] f3]; simpl; try reflexivity);
    unfold bind at 1; rewrite count_expired_run; reflexivity.
Qed.

(** What the statistics report on a healthy store. *)
Lemma get_stats_healthy w :
  faults w = [] ->
  fst (Cache.get_stats w) =
  Ok (Some
        (let total := Z.of_nat (size (table w)) in
         let expired :=
           Z.of_nat (size (filter (fun kr => expired_at (clock w) kr.2 = true) (table w))) in
         Cache.mkStats total expired (total - expired) (default 0 (db_file w)))).
Proof.
  intros Hf.
  unfold Cache.get_stats, duckdb_connect, select_count, select_all, duckdb_call,
    conn_close, finally, try_except, logger.
  destruct w as [t c f m d lg p cs]. simpl in Hf. subst f.
  unfold bind at 1 2. simpl. unfold bind at 1 2. simpl.
  unfold bind at 1 2. simpl. unfold bind at 1.
  rewrite count_expired_run. simpl.
  rewrite length_filter_map_to_list. reflexivity.
Qed.

(** C9. Stats is read-only.  Whatever the state of the cache and of the
    store, [get_stats] leaves every row in place, the expired ones too,
    where [get] on an expired row removes it.  On a healthy store it reports
    the number of rows, the number of rows expired at the time of the call,
    and their difference as the number of valid rows. *)
Theorem get_stats_read_only w :
  table (snd (Cache.get_stats w)) = table w /\
  (forall ticker dt row,
     faults w = [] ->
     table w !! _make_key ticker dt = Some row ->
     expired_at (clock w) row = true ->
     table (snd (Cache.get_stats w)) !! _make_key ticker dt = Some row /\
     table (snd (Cache.get ticker dt w)) !! _make_key ticker dt = None) /\
  (faults w = [] ->
   exists s,
     fst (Cache.get_stats w) = Ok (Some s) /\
     Cache.total_entries s = Z.of_nat (size (table w)) /\
     Cache.expired_entries s =
       Z.of_nat (size (filter (fun kr => expired_at (clock w) kr.2 = true) (table w))) /\
     Cache.valid_entries s = Cache.total_entries s - Cache.expired_entries s /\
     Cache.valid_entries s =
       Z.of_nat (size (filter (fun kr => expired_at (clock w) kr.2 = false) (table w)))).
Proof.
  split; [apply get_stats_keeps_table|]. split.
  - intros ticker dt row Hf Hrow Hexp. rewrite get_stats_keeps_table.
    split; [exact Hrow|].
    destruct (get_expired ticker dt row w Hf Hrow Hexp) as (w' & Hg & Ht).
    rewrite Hg. simpl. rewrite Ht. apply lookup_delete_eq.
  - intros Hf. rewrite (get_stats_healthy w Hf). eexists. split; [reflexivity|].
    cbn [Cache.total_entries Cache.expired_entries Cache.valid_entries].
    repeat split.
    rewrite (size_filter_complement
               (fun kr => expired_at (clock w) kr.2 = true) (table w)).
    assert (E : filter (fun kr : string * Row => ~ expired_at (clock w) kr.2 = true)
                  (table w) =
                filter (fun kr : string * Row => expired_at (clock w) kr.2 = false)
                  (table w)).
    { apply map_filter_ext. intros k r _. simpl.
      destruct (expired_at (clock w) r); split; congruence. }
    rewrite E. lia.
Qed.

End Statistics.

(** The scenario of the specification, with the statistics taken before the
    read: the expired entry is still counted, as expired, and still there. *)
Lemma get_stats_read_only_witness :
  let w :=
    advance 3000000
      (snd (Cache.set "TSLA" "fundamentals" (VFundamentals (H := Demo.models) x07)
              (Some 2) Demo.fresh)) in
  table (snd (Cache.get_stats w)) !! _make_key "TSLA" "fundamentals"
    = Some (mkRow [x02; x07] "fundamentals" 0 2) /\
  table (snd (Cache.get "TSLA" "fundamentals" w)) !! _make_key "TSLA" "fundamentals"
    = None /\
  exists s,
    fst (Cache.get_stats w) = Ok (Some s) /\
    Cache.total_entries s = 1 /\ Cache.expired_entries s = 1 /\ Cache.valid_entries s = 0.
Proof.
  intros w.
  destruct (get_stats_read_only (H0 := Demo.externals) w) as (_ & Hrow & Hrep).
  destruct (Hrow "TSLA" "fundamentals" (mkRow [x02; x07] "fundamentals" 0 2)
              eq_refl) as [Hkept Hgone]; [vm_compute; reflexivity | reflexivity |].
  destruct (Hrep eq_refl) as (s & Hs & Htot & Hexp & Hval & _).
  split; [exact Hkept|]. split; [exact Hgone|].
  exists s. split; [exact Hs|].
  assert (Ht : Cache.total_entries s = 1) by (rewrite Htot; vm_compute; reflexivity).
  assert (He : Cache.expired_entries s = 1) by (rewrite Hexp; vm_compute; reflexivity).
  repeat split; [exact Ht | exact He | rewrite Hval, Ht, He; reflexivity].
Defined.

(** * Further properties of the store *)

(** ** Projections of the world that a computation preserves *)

Section Projections.

Context `{Externals} {X : Type} (f : World -> X).

Lemma proj_bind {A B} (c : M A) (k : A -> M B) :
  (forall w, f (snd (c w)) = f w) ->
  (forall a w, f (snd (k a w)) = f w) ->
  forall w, f (snd (bind c k w)) = f w.
Proof.
  intros Hc Hk w. unfold bind. specialize (Hc w).
  destruct (c w) as [[a|e] w1]; simpl in *; [|exact Hc].
  rewrite Hk. exact Hc.
Qed.

Lemma proj_try_except {A} (body : M A) (handler : exn -> M A) :
  (forall w, f (snd (body w)) = f w) ->
  (forall e w, f (snd (handler e w)) = f w) ->
  forall w, f (snd (try_except body handler w)) = f w.
Proof.
  intros Hb Hh w. unfold try_except. specialize (Hb w).
  destruct (body w) as [[a|e] w1]; simpl in *; [exact Hb|].
  rewrite Hh. exact Hb.
Qed.

Lemma proj_finally {A} (body : M A) (cleanup : M unit) :
  (forall w, f (snd (body w)) = f w) ->
  (forall w, f (snd (cleanup w)) = f w) ->
  forall w, f (snd (finally body cleanup w)) = f w.
Proof.
  intros Hb Hc w. unfold finally. specialize (Hb w).
  destruct (body w) as [r w1]. specialize (Hc w1).
  destruct (cleanup w1) as [[u|e] w2]; simpl in *; congruence.
Qed.

End Projections.

(** One statement on an open connection: it may fail, it never opens or
    closes a connection. *)
Ltac statement_keeps :=
  let f := fresh "f" in
  intros [? ? f ? ? ? ? ?];
  unfold select_by_key, insert_or_replace, delete_by_key, delete_like, delete_all,
    select_all, select_count, duckdb_call, conn_commit, logger, datetime_now,
    bind, ret, raise;
  simpl;
  destruct f as [|[] fs]; simpl;
  try match goal with |- context [fits_INTEGER ?x] => destruct (fits_INTEGER x) end;
  reflexivity.

Section Connections.

Context `{Externals}.

(** Connect, work, close: whatever the work does, as long as it leaves the
    connections alone, the count of open connections is restored; and when
    the connection is refused nothing was opened. *)
Lemma bracket_keeps_conns {A} (inner : M A) :
  keeps_conns inner ->
  keeps_conns (duckdb_connect ;; finally inner conn_close).
Proof.
  intros Hi [t c f n d l p cs].
  unfold duckdb_connect, duckdb_call, bind at 1 2. simpl.
  destruct f as [|[] fs]; simpl; try reflexivity;
    unfold finally, conn_close;
    match goal with
    | |- context [inner ?w1] =>
        pose proof (Hi w1) as Hw; destruct (inner w1) as [r w2]
    end; simpl in *; rewrite Hw; reflexivity.
Qed.

Lemma delete_keeps_conns ticker dt : keeps_conns (Cache.delete ticker dt).
Proof.
  unfold Cache.delete. apply bracket_keeps_conns. unfold keeps_conns.
  apply proj_try_except.
  - apply proj_bind; [statement_keeps|]. intros _.
    apply proj_bind; [statement_keeps|]. intros _. statement_keeps.
  - intros e. statement_keeps.
Qed.

Lemma get_keeps_conns ticker dt : keeps_conns (Cache.get ticker dt).
Proof.
  unfold Cache.get. apply bracket_keeps_conns. unfold keeps_conns.
  apply proj_try_except.
  - apply proj_bind; [statement_keeps|]. intros [row|].
    + apply proj_bind; [intros w; reflexivity|]. intros [|].
      * apply proj_bind; [statement_keeps|]. intros _.
        apply proj_bind; [apply delete_keeps_conns|]. intros _ w. reflexivity.
      * destruct (pickle_loads (value row)); [|intros w; reflexivity].
        apply proj_bind; [statement_keeps|]. intros _ w. reflexivity.
    + apply proj_bind; [statement_keeps|]. intros _ w. reflexivity.
  - intros e. apply proj_bind; [statement_keeps|]. intros _ w. reflexivity.
Qed.

Lemma set_keeps_conns ticker dt data expiry :
  keeps_conns (Cache.set ticker dt data expiry).
Proof.
  unfold Cache.set. destruct (pickle_dumps data); [|statement_keeps].
  apply bracket_keeps_conns. unfold keeps_conns. apply proj_try_except.
  - apply proj_bind; [statement_keeps|]. intros now.
    apply proj_bind; [statement_keeps|]. intros _.
    apply proj_bind; [statement_keeps|]. intros _. statement_keeps.
  - intros e. statement_keeps.
Qed.

Lemma clear_expired_loop_keeps_conns l :
  forall n, keeps_conns (Cache.clear_expired_loop l n).
Proof.
  induction l as [|[k r] l IH]; intros n; cbn [Cache.clear_expired_loop].
  - intros w. reflexivity.
  - unfold keeps_conns. apply proj_bind; [intros w; reflexivity|]. intros [|].
    + apply proj_bind; [statement_keeps|]. intros _. apply IH.
    + apply IH.
Qed.

(** X1. No store operation leaks a connection: in every world, whatever
    fails, the number of open connections after [_ensure_schema], [get],
    [set], [delete], [clear_ticker], [clear_all], [clear_expired] and
    [get_stats] is the number before. *)
Theorem store_closes_its_connections ticker dt data expiry :
  keeps_conns Cache._ensure_schema /\
  keeps_conns (Cache.get ticker dt) /\
  keeps_conns (Cache.set ticker dt data expiry) /\
  keeps_conns (Cache.delete ticker dt) /\
  keeps_conns (Cache.clear_ticker ticker) /\
  keeps_conns Cache.clear_all /\
  keeps_conns Cache.clear_expired /\
  keeps_conns Cache.get_stats.
Proof.
  repeat split.
  - unfold Cache._ensure_schema. apply bracket_keeps_conns. unfold keeps_conns.
    apply proj_bind; [statement_keeps|]. intros _. statement_keeps.
  - apply get_keeps_conns.
  - apply set_keeps_conns.
  - apply delete_keeps_conns.
  - unfold Cache.clear_ticker. apply bracket_keeps_conns. unfold keeps_conns.
    apply proj_try_except.
    + apply proj_bind; [statement_keeps|]. intros _.
      apply proj_bind; [statement_keeps|]. intros _. statement_keeps.
    + intros e. statement_keeps.
  - unfold Cache.clear_all. apply bracket_keeps_conns. unfold keeps_conns.
    apply proj_try_except.
    + apply proj_bind; [statement_keeps|]. intros _.
      apply proj_bind; [statement_keeps|]. intros _. statement_keeps.
    + intros e. statement_keeps.
  - unfold Cache.clear_expired. apply bracket_keeps_conns. unfold keeps_conns.
    apply proj_try_except.
    + apply proj_bind; [statement_keeps|]. intros l.
      apply proj_bind; [apply clear_expired_loop_keeps_conns|]. intros n.
      apply proj_bind; [statement_keeps|]. intros _.
      apply proj_bind; [statement_keeps|]. intros _ w. reflexivity.
    + intros e. apply proj_bind; [statement_keeps|]. intros _ w. reflexivity.
  - unfold Cache.get_stats. apply bracket_keeps_conns. unfold keeps_conns.
    apply proj_try_except.
    + apply proj_bind; [statement_keeps|]. intros total.
      apply proj_bind; [statement_keeps|]. intros l.
      apply proj_bind; [intros w; rewrite count_expired_run; reflexivity|].
      intros n. apply proj_bind; [intros w; reflexivity|]. intros s w. reflexivity.
    + intros e. apply proj_bind; [statement_keeps|]. intros _ w. reflexivity.
Qed.

End Connections.

(** Case analysis along an operation: the fault schedule, the row found,
    whether it has expired, whether it decodes. *)
Ltac crunch :=
  repeat (simpl;
    match goal with
    | |- context [match ?f with nil => _ | cons _ _ => _ end] =>
        is_var f; destruct f as [|[] ?]
    | |- context [match ?t !! ?k with Some _ => _ | None => _ end] =>
        destruct (t !! k) eqn:?
    | |- context [match pickle_loads ?b with Some _ => _ | None => _ end] =>
        destruct (pickle_loads b) eqn:?
    | |- context [if ?b then _ else _] => destruct b eqn:?
    end).

Section Reads.

Context `{Externals}.

(** What a read can do to a row. *)
Lemma get_changes_only_expired_row ticker dt w k :
  table (snd (Cache.get ticker dt w)) !! k = table w !! k \/
  (k = _make_key ticker dt /\
   table (snd (Cache.get ticker dt w)) !! k = None /\
   exists row, table w !! k = Some row /\ expired_at (clock w) row = true).
Proof.
  destruct w as [t c f n d l p cs]. run. unfold expired_at. crunch;
    try (left; reflexivity);
    (destruct (decide (k = _make_key ticker dt)) as [->|Hne];
     [ right; split; [reflexivity|]; split; [apply lookup_delete_eq|]; eauto
     | left; apply lookup_delete_ne; congruence ]).
Qed.

(** X2. A read never writes: in every world, whatever fails, the only
    change [get] can make to the table is to remove the row of its own key,
    and only when that row is expired; every other row, and every row that
    has not expired, is as it was. *)
Theorem get_only_removes_expired_row ticker dt w k :
  (table (snd (Cache.get ticker dt w)) !! k = table w !! k \/
   (k = _make_key ticker dt /\
    table (snd (Cache.get ticker dt w)) !! k = None /\
    exists row, table w !! k = Some row /\ expired_at (clock w) row = true)) /\
  (k <> _make_key ticker dt ->
   table (snd (Cache.get ticker dt w)) !! k = table w !! k) /\
  (forall row,
     table w !! k = Some row -> expired_at (clock w) row = false ->
     table (snd (Cache.get ticker dt w)) !! k = Some row).
Proof.
  pose proof (get_changes_only_expired_row ticker dt w k) as Hg.
  split; [exact Hg|]. split.
  - intros Hne. destruct Hg as [E|(E & _)]; [exact E | contradiction].
  - intros row Hrow Hexp. destruct Hg as [E|(_ & _ & r & Hr & He)]; congruence.
Qed.

(** A read of a key without a row. *)
Lemma get_miss ticker dt w :
  faults w = [] ->
  table w !! _make_key ticker dt = None ->
  Cache.get ticker dt w =
    (Ok None, with_log (log w ++ [(DEBUG, CacheMiss (_make_key ticker dt))]) w).
Proof.
  intros Hf Hk. destruct w as [t c f n d l p cs]. simpl in *. subst f.
  run. rewrite Hk. reflexivity.
Qed.

(** [delete] on a healthy store, in full. *)
Lemma delete_run ticker dt w :
  faults w = [] ->
  Cache.delete ticker dt w =
    (Ok tt,
     with_log (log w ++ [(DEBUG, Deleted (_make_key ticker dt))])
       (with_table (base.delete (_make_key ticker dt) (table w)) w)).
Proof.
  intros Hf. destruct w as [t c f n d l p cs]. simpl in *. subst f. reflexivity.
Qed.

(** X3. Idempotent delete.  On a healthy store [delete] returns silently
    and removes the row of its key and no other; when there is no such row
    the table is unchanged; deleting twice is deleting once; and a read that
    follows, in any spelling of the ticker, finds nothing. *)
Theorem delete_is_idempotent ticker ticker' dt w :
  faults w = [] ->
  upper ticker' = upper ticker ->
  let w1 := snd (Cache.delete ticker dt w) in
  fst (Cache.delete ticker dt w) = Ok tt /\
  table w1 = base.delete (_make_key ticker dt) (table w) /\
  (table w !! _make_key ticker dt = None -> table w1 = table w) /\
  fst (Cache.delete ticker' dt w1) = Ok tt /\
  table (snd (Cache.delete ticker' dt w1)) = table w1 /\
  fst (Cache.get ticker' dt w1) = Ok None.
Proof.
  intros Hf Hup w1. subst w1. rewrite (delete_run ticker dt w Hf). cbn [fst snd].
  assert (Hkey : _make_key ticker' dt = _make_key ticker dt)
    by (unfold _make_key; rewrite Hup; reflexivity).
  split; [reflexivity|]. split; [destruct w; reflexivity|].
  split; [intros Hk; destruct w; simpl in *; apply delete_id; exact Hk|].
  rewrite delete_run by (destruct w; exact Hf).
  split; [reflexivity|]. split.
  - destruct w as [t c f n d l p cs]. simpl. rewrite Hkey. apply delete_delete_eq.
  - rewrite get_miss; [reflexivity | destruct w; exact Hf |].
    destruct w as [t c f n d l p cs]. simpl. rewrite Hkey. apply lookup_delete_eq.
Qed.

End Reads.

(** Deleting a key that was never written, then reading it. *)
Lemma delete_is_idempotent_witness :
  table (snd (Cache.delete "AAPL" "stock_data" Demo.fresh)) = table Demo.fresh /\
  fst (Cache.get "aapl" "stock_data" (snd (Cache.delete "AAPL" "stock_data" Demo.fresh)))
    = Ok None.
Proof.
  destruct (delete_is_idempotent (H0 := Demo.externals) "AAPL" "aapl" "stock_data"
              Demo.fresh eq_refl eq_refl) as (_ & _ & Hnone & _ & _ & Hget).
  split; [apply Hnone; reflexivity | exact Hget].
Defined.

Arguments Cache.get : simpl never.
Arguments Cache.set : simpl never.
Arguments Cache.delete : simpl never.
Arguments Cache._get_default_expiry : simpl never.

Section Writes.

Context `{Externals}.

(** [set] on a healthy store, in full. *)
Lemma set_run ticker dt data expiry b w :
  faults w = [] ->
  pickle_dumps data = Some b ->
  fits_INTEGER (default (Cache._get_default_expiry dt) expiry) = true ->
  Cache.set ticker dt data expiry w =
    (Ok tt,
     with_log
       (log w ++
        [(DEBUG, Cached (_make_key ticker dt)
                   (default (Cache._get_default_expiry dt) expiry))])
       (with_table
          (<[_make_key ticker dt :=
               mkRow b dt (clock w) (default (Cache._get_default_expiry dt) expiry)]>
             (table w)) w)).
Proof.
  intros Hf Hb HT. destruct w as [t c f n d l p cs]. simpl in *. subst f.
  unfold Cache.set. rewrite Hb.
  replace (match expiry with Some n0 => n0 | None => Cache._get_default_expiry dt end)
    with (default (Cache._get_default_expiry dt) expiry) by (destruct expiry; reflexivity).
  run. rewrite HT. reflexivity.
Qed.

(** X4. Last write wins.  On a healthy store, a second write under the same
    pair, in any spelling of the ticker and any time later, replaces the row
    of the first: the table has the same number of rows, the row holds the
    second blob, the time of the second write and the second TTL, and a read
    returns the second record. *)
Theorem set_overwrites ticker ticker' dt x y bx by_ e1 e2 d w :
  faults w = [] ->
  upper ticker' = upper ticker ->
  pickle_dumps x = Some bx ->
  pickle_dumps y = Some by_ ->
  pickle_loads by_ = Some y ->
  fits_INTEGER (default (Cache._get_default_expiry dt) e1) = true ->
  fits_INTEGER (default (Cache._get_default_expiry dt) e2) = true ->
  0 <= default (Cache._get_default_expiry dt) e2 ->
  let w1 := snd (Cache.set ticker dt x e1 w) in
  let w2 := snd (Cache.set ticker' dt y e2 (advance d w1)) in
  size (table w2) = size (table w1) /\
  table w2 !! _make_key ticker dt =
    Some (mkRow by_ dt (clock w + d) (default (Cache._get_default_expiry dt) e2)) /\
  fst (Cache.get ticker dt w2) = Ok (Some y).
Proof.
  intros Hf Hup Hx Hy Hdec H1 H2 Hpos w1 w2. subst w1 w2.
  assert (Hkey : _make_key ticker' dt = _make_key ticker dt)
    by (unfold _make_key; rewrite Hup; reflexivity).
  rewrite (set_run ticker dt x e1 bx w Hf Hx H1). cbn [snd].
  rewrite (set_run ticker' dt y e2 by_) by (destruct w; assumption).
  cbn [snd]. rewrite Hkey.
  destruct w as [t c f n dd l p cs]. simpl in Hf. subst f. simpl.
  split; [|split].
  - apply map_size_insert_Some. rewrite lookup_insert_eq. eauto.
  - apply lookup_insert_eq.
  - match goal with
    | |- fst (Cache.get ticker dt ?w2) = _ =>
        destruct (get_fresh ticker dt
                    (mkRow by_ dt (c + d) (default (Cache._get_default_expiry dt) e2))
                    y w2) as (w3 & Hg & _);
          [reflexivity | apply lookup_insert_eq | exact Hdec | | rewrite Hg; reflexivity]
    end.
    unfold expired_at. simpl. apply Z.ltb_ge. unfold timedelta. lia.
Qed.

(** The categories the default-TTL dictionary knows. *)
Lemma default_expiry_unknown dt :
  ~ In dt ["price"; "stock_data"; "fundamental"; "fundamentals"; "options";
           "options_chain"; "news"; "analyst_ratings"; "market_data"] ->
  Cache._get_default_expiry dt = 86400.
Proof.
  intros Hn. unfold Cache._get_default_expiry, Cache.expiry_map.
  cbn [Cache.dict_get].
  repeat match goal with
         | |- context [String.eqb ?a dt] =>
             let E := fresh "E" in
             destruct (String.eqb a dt) eqn:E;
             [apply String.eqb_eq in E; exfalso; apply Hn; subst dt; simpl; tauto|]
         end.
  reflexivity.
Qed.

(** X5. Default-TTL policy.  A category outside the nine names of the
    dictionary gets the TTL of fundamentals, 86400 seconds; every default is
    900, 3600 or 86400 seconds.  On a healthy store the row written by
    [set] carries the TTL passed explicitly whatever the category, and the
    default of the category when none is passed. *)
Theorem default_ttl_policy ticker dt data b w :
  faults w = [] ->
  pickle_dumps data = Some b ->
  (~ In dt ["price"; "stock_data"; "fundamental"; "fundamentals"; "options";
            "options_chain"; "news"; "analyst_ratings"; "market_data"] ->
   Cache._get_default_expiry dt = 86400) /\
  (Cache._get_default_expiry dt = 900 \/ Cache._get_default_expiry dt = 3600 \/
   Cache._get_default_expiry dt = 86400) /\
  (expiry_seconds <$>
     table (snd (Cache.set ticker dt data None w)) !! _make_key ticker dt)
    = Some (Cache._get_default_expiry dt) /\
  (forall T, fits_INTEGER T = true ->
     (expiry_seconds <$>
        table (snd (Cache.set ticker dt data (Some T) w)) !! _make_key ticker dt)
     = Some T).
Proof.
  intros Hf Hb. split; [apply default_expiry_unknown|]. split; [|split].
  - unfold Cache._get_default_expiry, Cache.expiry_map. cbn [Cache.dict_get].
    repeat match goal with
           | |- context [String.eqb ?a dt] => destruct (String.eqb a dt)
           end; vm_compute; tauto.
  - rewrite (set_run ticker dt data None b w Hf Hb)
      by apply (proj2 (default_expiry_bounds dt)).
    destruct w; simpl. rewrite lookup_insert_eq. reflexivity.
  - intros T HT. rewrite (set_run ticker dt data (Some T) b w Hf Hb HT).
    destruct w; simpl. rewrite lookup_insert_eq. reflexivity.
Qed.

(** X6. Zero and negative TTLs.  On a healthy store, an entry written with
    a negative TTL is never served: a read at the time of the write or later
    returns absent and removes the row.  An entry written with TTL 0 is
    served at the very instant of the write and at no later time. *)
Theorem nonpositive_ttl ticker dt data b T d w :
  faults w = [] ->
  pickle_dumps data = Some b ->
  pickle_loads b = Some data ->
  fits_INTEGER T = true ->
  0 <= d ->
  let w1 := advance d (snd (Cache.set ticker dt data (Some T) w)) in
  (T < 0 ->
   fst (Cache.get ticker dt w1) = Ok None /\
   table (snd (Cache.get ticker dt w1)) !! _make_key ticker dt = None) /\
  (T = 0 -> 0 < d ->
   fst (Cache.get ticker dt w1) = Ok None /\
   table (snd (Cache.get ticker dt w1)) !! _make_key ticker dt = None) /\
  (T = 0 -> d = 0 -> fst (Cache.get ticker dt w1) = Ok (Some data)).
Proof.
  intros Hf Hb Hdec HT Hd w1. subst w1.
  rewrite (set_run ticker dt data (Some T) b w Hf Hb HT). cbn [snd default].
  destruct w as [t c f n dd l p cs]. simpl in Hf. subst f.
  assert (Hexp : forall Hlt : c + timedelta T < c + d,
            fst (Cache.get ticker dt
                   (advance d
                      (with_log
                         (l ++ [(DEBUG, Cached (_make_key ticker dt) T)])
                         (with_table
                            (<[_make_key ticker dt := mkRow b dt c T]> t)
                            (mkWorld t c [] n dd l p cs))))) = Ok None /\
            table (snd (Cache.get ticker dt
                   (advance d
                      (with_log
                         (l ++ [(DEBUG, Cached (_make_key ticker dt) T)])
                         (with_table
                            (<[_make_key ticker dt := mkRow b dt c T]> t)
                            (mkWorld t c [] n dd l p cs))))))
              !! _make_key ticker dt = None).
  { intros Hlt.
    match goal with
    | |- fst (Cache.get ticker dt ?w1) = _ /\ _ =>
        destruct (get_expired ticker dt (mkRow b dt c T) w1) as (w3 & Hg & Ht);
          [reflexivity | apply lookup_insert_eq | | rewrite Hg]
    end.
    - unfold expired_at. simpl. apply Z.ltb_lt. exact Hlt.
    - simpl. rewrite Ht. split; [reflexivity | apply lookup_delete_eq]. }
  split; [|split].
  - intros HT0. apply Hexp. unfold timedelta. lia.
  - intros HT0 Hd0. apply Hexp. unfold timedelta. lia.
  - intros HT0 Hd0. subst T d.
    match goal with
    | |- fst (Cache.get ticker dt ?w1) = _ =>
        destruct (get_fresh ticker dt (mkRow b dt c 0) data w1) as (w3 & Hg & _);
          [reflexivity | apply lookup_insert_eq | exact Hdec | | rewrite Hg; reflexivity]
    end.
    unfold expired_at. simpl. apply Z.ltb_ge. unfold timedelta. lia.
Qed.

(** X7. Recovery from a corrupt row.  On a healthy store, a row whose blob
    does not decode and that has not expired makes [get] return absent and
    stays in the table; a later [set] for the key replaces it, and the read
    that follows returns the record written. *)
Theorem corrupt_row_is_replaced ticker dt row data b w :
  faults w = [] ->
  table w !! _make_key ticker dt = Some row ->
  expired_at (clock w) row = false ->
  pickle_loads (value row) = None ->
  pickle_dumps data = Some b ->
  pickle_loads b = Some data ->
  let w1 := snd (Cache.get ticker dt w) in
  let w2 := snd (Cache.set ticker dt data None w1) in
  fst (Cache.get ticker dt w) = Ok None /\
  table w1 = table w /\
  size (table w2) = size (table w) /\
  fst (Cache.get ticker dt w2) = Ok (Some data).
Proof.
  intros Hf Hrow Hexp Hbad Hb Hdec w1 w2. subst w1 w2.
  destruct (default_expiry_bounds dt) as [Hpos Hfit].
  destruct w as [t c f n d l p cs]. simpl in Hf, Hrow, Hexp. subst f.
  assert (Hget : Cache.get ticker dt (mkWorld t c [] n d l p cs) =
                 (Ok None,
                  mkWorld t c [] n d
                    (l ++ [(ERROR, ErrorRetrieving PickleError)]) p cs)).
  { unfold expired_at in Hexp. run. rewrite Hrow. simpl. rewrite Hexp, Hbad.
    reflexivity. }
  rewrite Hget. cbn [fst snd].
  rewrite (set_run ticker dt data None b) by first [reflexivity | assumption | exact Hfit].
  simpl.
  split; [reflexivity|]. split; [reflexivity|]. split.
  - apply map_size_insert_Some. rewrite Hrow. eauto.
  - match goal with
    | |- fst (Cache.get ticker dt ?w2) = _ =>
        destruct (get_fresh ticker dt
                    (mkRow b dt c (Cache._get_default_expiry dt)) data w2)
          as (w3 & Hg & _);
          [reflexivity | apply lookup_insert_eq | exact Hdec | | rewrite Hg; reflexivity]
    end.
    unfold expired_at. simpl. apply Z.ltb_ge. unfold timedelta. lia.
Qed.

End Writes.

(** Prices written under "AAPL", then again five microseconds later under
    "aapl" with a TTL of a minute. *)
Lemma set_overwrites_witness :
  let x := VStockData (H := Demo.models) x2a in
  let y := VStockData (H := Demo.models) x2b in
  let w1 := snd (Cache.set "AAPL" "price" x None Demo.fresh) in
  let w2 := snd (Cache.set "aapl" "price" y (Some 60) (advance 5 w1)) in
  size (table w2) = size (table w1) /\
  table w2 !! _make_key "AAPL" "price" = Some (mkRow [x01; x2b] "price" 5 60) /\
  fst (Cache.get "AAPL" "price" w2) = Ok (Some y).
Proof.
  apply (set_overwrites (H0 := Demo.externals) "AAPL" "aapl" "price"
           (VStockData (H := Demo.models) x2a) (VStockData (H := Demo.models) x2b)
           [x01; x2a] [x01; x2b] None (Some 60) 5 Demo.fresh);
    first [reflexivity | vm_compute; congruence].
Defined.

(** A category the dictionary does not know lives a day. *)
Lemma default_ttl_policy_witness :
  Cache._get_default_expiry "quotes" = 86400 /\
  (expiry_seconds <$>
     table (snd (Cache.set "AAPL" "quotes" (VStockData (H := Demo.models) x2a) None
                   Demo.fresh)) !! _make_key "AAPL" "quotes") = Some 86400.
Proof.
  destruct (default_ttl_policy (H0 := Demo.externals) "AAPL" "quotes"
              (VStockData (H := Demo.models) x2a) [x01; x2a] Demo.fresh
              eq_refl eq_refl) as (Hunknown & _ & Hrow & _).
  assert (E : Cache._get_default_expiry "quotes" = 86400).
  { apply Hunknown. vm_compute. intuition discriminate. }
  split; [exact E|]. rewrite Hrow, E. reflexivity.
Defined.

(** A TTL of -1 second: the entry is gone at the first read. *)
Lemma nonpositive_ttl_witness :
  let w1 :=
    advance 0
      (snd (Cache.set "AAPL" "price" (VStockData (H := Demo.models) x2a) (Some (-1))
              Demo.fresh)) in
  fst (Cache.get "AAPL" "price" w1) = Ok None /\
  table (snd (Cache.get "AAPL" "price" w1)) !! _make_key "AAPL" "price" = None.
Proof.
  destruct (nonpositive_ttl (H0 := Demo.externals) "AAPL" "price"
              (VStockData (H := Demo.models) x2a) [x01; x2a] (-1) 0 Demo.fresh)
    as (Hneg & _); try reflexivity.
  apply Hneg. reflexivity.
Defined.

(** A row holding one byte that is no pickle of the toy codec. *)
Lemma corrupt_row_is_replaced_witness :
  let w :=
    with_table (<[_make_key "AAPL" "price" := mkRow [xff] "price" 0 900]> ∅)
      Demo.fresh in
  let data := VStockData (H := Demo.models) x2a in
  fst (Cache.get "AAPL" "price" w) = Ok None /\
  table (snd (Cache.get "AAPL" "price" w)) = table w /\
  fst (Cache.get "AAPL" "price"
         (snd (Cache.set "AAPL" "price" data None (snd (Cache.get "AAPL" "price" w)))))
    = Ok (Some data).
Proof.
  intros w data.
  destruct (corrupt_row_is_replaced (H0 := Demo.externals) "AAPL" "price"
              (mkRow [xff] "price" 0 900) data [x01; x2a] w)
    as (Hnone & Hkept & _ & Hback); try (vm_compute; reflexivity).
  split; [exact Hnone|]. split; [exact Hkept | exact Hback].
Defined.

(** ** [LIKE] patterns *)

(** One step of the matcher. *)
Lemma like_cons c p :
  like (String c p) =
  if Ascii.eqb c "%" then
    fix star (s : string) : bool :=
      (like p s ||
       match s with EmptyString => false | String _ s' => star s' end)%bool
  else if Ascii.eqb c "_" then
    fun s => match s with EmptyString => false | String _ s' => like p s' end
  else
    fun s => match s with
             | EmptyString => false
             | String d s' => (Ascii.eqb c d && like p s')%bool
             end.
Proof. reflexivity. Qed.

Lemma like_percent_cons p s :
  like (String "%" p) s =
  (like p s ||
   match s with EmptyString => false | String _ s' => like (String "%" p) s' end)%bool.
Proof. destruct s; reflexivity. Qed.

Lemma like_literal c p s :
  Ascii.eqb c "%" = false -> Ascii.eqb c "_" = false ->
  like (String c p) s =
  match s with
  | EmptyString => false
  | String d s' => (Ascii.eqb c d && like p s')%bool
  end.
Proof. intros H1 H2. rewrite like_cons, H1, H2. reflexivity. Qed.

Lemma like_percent s : like "%" s = true.
Proof.
  induction s as [|c s IH]; [reflexivity|].
  rewrite like_percent_cons, IH. apply orb_true_r.
Qed.

(** A pattern matches what it matched behind one more equal character, be
    that character a wildcard or not. *)
Lemma like_cons_same c p s : like p s = true -> like (String c p) (String c s) = true.
Proof.
  intros Hps. destruct (Ascii.eqb c "%") eqn:E1.
  - apply Ascii.eqb_eq in E1. subst c.
    rewrite like_percent_cons. rewrite (like_percent_cons p s), Hps.
    apply orb_true_r.
  - destruct (Ascii.eqb c "_") eqn:E2.
    + apply Ascii.eqb_eq in E2. subst c. exact Hps.
    + rewrite like_literal by assumption. rewrite Ascii.eqb_refl, Hps. reflexivity.
Qed.

Lemma like_app_same u p s : like p s = true -> like (u +:+ p) (u +:+ s) = true.
Proof.
  intros Hps. induction u as [|c u IH]; [exact Hps|].
  simpl. apply like_cons_same. exact IH.
Qed.

(** [_] stands for any one character, [%] for any run of characters. *)
Lemma like_underscore_any p s x : like p s = true -> like (String "_" p) (String x s) = true.
Proof. intros Hps. exact Hps. Qed.

Lemma like_percent_any p s mid : like p s = true -> like (String "%" p) (mid +:+ s) = true.
Proof.
  intros Hps. induction mid as [|c mid IH].
  - change ("" +:+ s) with s. rewrite like_percent_cons, Hps. reflexivity.
  - change (String c mid +:+ s) with (String c (mid +:+ s)).
    rewrite like_percent_cons, IH. apply orb_true_r.
Qed.

(** The pattern of [clear_ticker] always matches the keys of its ticker. *)
Lemma like_own_key u c : like (u +:+ ":%") (u +:+ ":" +:+ c) = true.
Proof.
  apply like_app_same. rewrite like_literal by reflexivity.
  simpl. apply like_percent.
Qed.

(** Without wildcards in the ticker, it matches nothing else. *)
Lemma like_prefix u : forall k,
  no_wildcard u = true ->
  like (u +:+ ":%") k = true -> exists rest, k = u +:+ ":" +:+ rest.
Proof.
  induction u as [|a u IH]; intros k Hu Hl.
  - change ("" +:+ ":%") with ":%" in Hl. rewrite like_literal in Hl by reflexivity.
    destruct k as [|d k]; [discriminate|].
    apply andb_true_iff in Hl as [Hd _]. apply Ascii.eqb_eq in Hd. subst d.
    exists k. reflexivity.
  - simpl in Hu. apply andb_true_iff in Hu as [Ha Hu].
    apply andb_true_iff in Ha as [Ha1 Ha2].
    apply negb_true_iff in Ha1. apply negb_true_iff in Ha2.
    change (String a u +:+ ":%") with (String a (u +:+ ":%")) in Hl.
    rewrite like_literal in Hl by assumption.
    destruct k as [|d k]; [discriminate|].
    apply andb_true_iff in Hl as [Hd Hl]. apply Ascii.eqb_eq in Hd. subst d.
    destruct (IH k Hu Hl) as [rest ->]. exists rest. reflexivity.
Qed.

Lemma ascii_upper_wildcard c :
  (Ascii.eqb (ascii_upper c) "%" = Ascii.eqb c "%") /\
  (Ascii.eqb (ascii_upper c) "_" = Ascii.eqb c "_").
Proof. destruct c as [[] [] [] [] [] [] [] []]; split; reflexivity. Qed.

Lemma no_wildcard_upper t : no_wildcard (upper t) = no_wildcard t.
Proof.
  induction t as [|c t IH]; [reflexivity|].
  change (upper (String c t)) with (String (ascii_upper c) (upper t)).
  simpl. destruct (ascii_upper_wildcard c) as [-> ->]. rewrite IH. reflexivity.
Qed.

Lemma upper_app a b : upper (a +:+ b) = upper a +:+ upper b.
Proof.
  induction a as [|c a IH]; [reflexivity|].
  change (upper (String c a +:+ b)) with (String (ascii_upper c) (upper (a +:+ b))).
  rewrite IH. reflexivity.
Qed.

Lemma append_assoc a b c : (a +:+ b) +:+ c = a +:+ b +:+ c.
Proof.
  induction a as [|x a IH]; [reflexivity|].
  change (String x ((a +:+ b) +:+ c) = String x (a +:+ b +:+ c)).
  rewrite IH. reflexivity.
Qed.

Section Clearing.

Context `{Externals}.

(** [clear_ticker] on a healthy store, in full. *)
Lemma clear_ticker_run ticker w :
  faults w = [] ->
  Cache.clear_ticker ticker w =
    (Ok tt,
     with_log (log w ++ [(INFO, ClearedTicker ticker)])
       (with_table
          (filter (fun kr => like (upper ticker +:+ ":%") kr.1 = false) (table w)) w)).
Proof.
  intros Hf. destruct w as [t c f n d l p cs]. simpl in *. subst f. reflexivity.
Qed.

(** X8. [clear_ticker] clears the ticker, in every spelling, and nothing
    else when the ticker is plain.  On a healthy store it returns silently;
    afterwards, for an ASCII ticker, no category of the ticker has a row,
    whatever the case the ticker was written in.  If the ticker is ASCII
    and has no [%] and no [_], every row whose key does not begin with the
    uppercase ticker and a colon is as it was; in particular the rows of
    every other ASCII colon-free ticker are. *)
Theorem clear_ticker_clears_the_ticker ticker w :
  faults w = [] ->
  let w' := snd (Cache.clear_ticker ticker w) in
  fst (Cache.clear_ticker ticker w) = Ok tt /\
  (is_ascii ticker = true ->
   forall ticker' c,
     is_ascii ticker' = true ->
     upper ticker' = upper ticker -> table w' !! _make_key ticker' c = None) /\
  (is_ascii ticker = true -> no_wildcard ticker = true ->
   forall k,
     (forall rest, k <> upper ticker +:+ ":" +:+ rest) ->
     table w' !! k = table w !! k) /\
  (is_ascii ticker = true -> no_wildcard ticker = true -> no_colon ticker = true ->
   forall ticker2 c2,
     is_ascii ticker2 = true ->
     no_colon ticker2 = true -> upper ticker2 <> upper ticker ->
     table w' !! _make_key ticker2 c2 = table w !! _make_key ticker2 c2).
Proof.
  intros Hf w'. subst w'. rewrite (clear_ticker_run ticker w Hf). cbn [fst snd].
  assert (Hkeep : no_wildcard ticker = true ->
            forall k, (forall rest, k <> upper ticker +:+ ":" +:+ rest) ->
            filter (fun kr => like (upper ticker +:+ ":%") kr.1 = false) (table w) !! k
            = table w !! k).
  { intros Hw k Hk. destruct (table w !! k) as [r|] eqn:Er.
    - apply map_lookup_filter_Some. split; [exact Er|]. simpl.
      destruct (like (upper ticker +:+ ":%") k) eqn:El; [|reflexivity].
      apply like_prefix in El; [|rewrite no_wildcard_upper; exact Hw].
      destruct El as [rest ->]. exfalso. apply (Hk rest). reflexivity.
    - apply map_lookup_filter_None. left. exact Er. }
  destruct w as [t c f n d l p cs]. simpl in *.
  split; [reflexivity|]. split; [|split].
  - intros _ ticker' cat _ Hup. apply map_lookup_filter_None. right.
    intros r _. simpl. unfold _make_key. rewrite Hup, like_own_key. discriminate.
  - intros _. exact Hkeep.
  - intros _ Hw Hc ticker2 c2 _ Hc2 Hne. apply (Hkeep Hw).
    intros rest E. unfold _make_key in E.
    apply key_split in E as [E _]; [congruence | |];
      rewrite no_colon_upper; assumption.
Qed.

(** X9. Wildcards in a ticker leak.  The ticker is pasted into a [LIKE]
    pattern unescaped: on a healthy store, clearing a ticker that contains
    [_] also removes the rows of every ticker that has any character in that
    place, and clearing a ticker that contains [%] also removes the rows of
    every ticker that has any run of characters in that place. *)
Theorem clear_ticker_wildcards_leak t1 t2 c w :
  faults w = [] ->
  (forall x : ascii,
     table (snd (Cache.clear_ticker (t1 +:+ "_" +:+ t2) w))
       !! _make_key (t1 +:+ String x t2) c = None) /\
  (forall mid : string,
     table (snd (Cache.clear_ticker (t1 +:+ "%" +:+ t2) w))
       !! _make_key (t1 +:+ mid +:+ t2) c = None).
Proof.
  intros Hf. split.
  - intros x. rewrite (clear_ticker_run _ w Hf). destruct w as [t cl f n d l p cs].
    simpl. apply map_lookup_filter_None. right. intros r _. simpl.
    unfold _make_key. rewrite !upper_app.
    change (upper (String x t2)) with (String (ascii_upper x) (upper t2)).
    change (upper "_") with "_".
    rewrite !append_assoc.
    rewrite like_app_same; [discriminate|].
    change ("_" +:+ upper t2 +:+ ":%") with (String "_" (upper t2 +:+ ":%")).
    change (String (ascii_upper x) (upper t2) +:+ ":" +:+ c)
      with (String (ascii_upper x) (upper t2 +:+ ":" +:+ c)).
    apply like_underscore_any. apply like_own_key.
  - intros mid. rewrite (clear_ticker_run _ w Hf). destruct w as [t cl f n d l p cs].
    simpl. apply map_lookup_filter_None. right. intros r _. simpl.
    unfold _make_key. rewrite !upper_app.
    change (upper "%") with "%".
    rewrite !append_assoc.
    rewrite like_app_same; [discriminate|].
    change ("%" +:+ upper t2 +:+ ":%") with (String "%" (upper t2 +:+ ":%")).
    apply like_percent_any. apply like_own_key.
Qed.

(** [clear_all] on a healthy store, in full. *)
Lemma clear_all_run w :
  faults w = [] ->
  Cache.clear_all w =
    (Ok tt, with_log (log w ++ [(INFO, ClearedAll)]) (with_table ∅ w)).
Proof.
  intros Hf. destruct w as [t c f n d l p cs]. simpl in *. subst f. reflexivity.
Qed.

(** X10. [clear_all] empties the cache.  On a healthy store it returns
    silently and leaves no row: every read that follows is a miss, and the
    statistics report zero entries, zero expired, zero valid. *)
Theorem clear_all_empties w :
  faults w = [] ->
  let w1 := snd (Cache.clear_all w) in
  fst (Cache.clear_all w) = Ok tt /\
  table w1 = ∅ /\
  (forall ticker dt, fst (Cache.get ticker dt w1) = Ok None) /\
  fst (Cache.get_stats w1) = Ok (Some (Cache.mkStats 0 0 0 (default 0 (db_file w)))).
Proof.
  intros Hf w1. subst w1. rewrite (clear_all_run w Hf). cbn [fst snd].
  destruct w as [t c f n d l p cs]. simpl in Hf. subst f.
  split; [reflexivity|]. split; [reflexivity|]. split.
  - intros ticker dt. rewrite get_miss; [reflexivity | reflexivity |].
    simpl. apply lookup_empty.
  - rewrite get_stats_healthy by reflexivity. simpl.
    rewrite map_filter_empty, map_size_empty. reflexivity.
Qed.

End Clearing.

(** Two tickers cached; clearing "aapl" removes AAPL and keeps MSFT. *)
Lemma clear_ticker_clears_the_ticker_witness :
  let x := VStockData (H := Demo.models) x2a in
  let w :=
    snd (Cache.set "MSFT" "stock_data" x None
           (snd (Cache.set "AAPL" "stock_data" x None Demo.fresh))) in
  let w' := snd (Cache.clear_ticker "aapl" w) in
  table w' !! _make_key "AAPL" "stock_data" = None /\
  table w' !! _make_key "MSFT" "stock_data" = table w !! _make_key "MSFT" "stock_data".
Proof.
  intros x w w'.
  destruct (clear_ticker_clears_the_ticker (H0 := Demo.externals) "aapl" w eq_refl)
    as (_ & Hgone & _ & Hkept).
  split.
  - apply Hgone; reflexivity.
  - apply Hkept; try reflexivity. vm_compute. congruence.
Defined.

(** Clearing "BRK_B" also clears "BRK.B". *)
Lemma clear_ticker_wildcards_leak_witness :
  let w :=
    snd (Cache.set "BRK.B" "stock_data" (VStockData (H := Demo.models) x2a) None
           Demo.fresh) in
  table w !! _make_key "BRK.B" "stock_data"
    = Some (mkRow [x01; x2a] "stock_data" 0 900) /\
  table (snd (Cache.clear_ticker "BRK_B" w)) !! _make_key "BRK.B" "stock_data" = None.
Proof.
  intros w. split; [vm_compute; reflexivity|].
  destruct (clear_ticker_wildcards_leak (H0 := Demo.externals) "BRK" "B" "stock_data"
              w eq_refl) as [Hunderscore _].
  apply (Hunderscore "."%char).
Defined.

(** A cache with one entry, cleared. *)
Lemma clear_all_empties_witness :
  let w :=
    snd (Cache.set "AAPL" "stock_data" (VStockData (H := Demo.models) x2a) None
           Demo.fresh) in
  fst (Cache.get "AAPL" "stock_data" (snd (Cache.clear_all w))) = Ok None /\
  fst (Cache.get_stats (snd (Cache.clear_all w))) = Ok (Some (Cache.mkStats 0 0 0 0)).
Proof.
  intros w.
  destruct (clear_all_empties (H0 := Demo.externals) w eq_refl)
    as (_ & _ & Hget & Hstats).
  split; [apply Hget | exact Hstats].
Defined.

Section SweepAgain.

Context `{Externals}.

(** A table from which the expired rows were filtered has none. *)
Lemma filter_expired_of_unexpired now (t : gmap string Row) :
  filter (fun kr : string * Row => expired_at now kr.2 = true)
    (filter (fun kr : string * Row => expired_at now kr.2 = false) t) = ∅.
Proof.
  apply map_empty. intros k. apply map_lookup_filter_None. right.
  intros r Hr. apply map_lookup_filter_Some in Hr as [_ Hr]. simpl in *. congruence.
Qed.

Lemma filter_unexpired_idempotent now (t : gmap string Row) :
  filter (fun kr : string * Row => expired_at now kr.2 = false)
    (filter (fun kr : string * Row => expired_at now kr.2 = false) t)
  = filter (fun kr : string * Row => expired_at now kr.2 = false) t.
Proof.
  apply map_filter_id. intros k r Hr.
  apply map_lookup_filter_Some in Hr as [_ Hr]. exact Hr.
Qed.

(** X11. The sweep is idempotent and leaves nothing for a read to delete.
    On a healthy store, once [clear_expired] has run, a second sweep at the
    same time removes nothing and logs a count of 0, the statistics report
    no expired entry and as many valid entries as there are rows, and no
    [get] changes the table. *)
Theorem clear_expired_is_idempotent w :
  faults w = [] ->
  let w1 := snd (Cache.clear_expired w) in
  let w2 := snd (Cache.clear_expired w1) in
  table w2 = table w1 /\
  log w2 = (log w1 ++ [(INFO, ClearedExpired 0)])%list /\
  fst (Cache.get_stats w1) =
    Ok (Some (Cache.mkStats (Z.of_nat (size (table w1))) 0
                (Z.of_nat (size (table w1))) (default 0 (db_file w)))) /\
  (forall ticker dt, table (snd (Cache.get ticker dt w1)) = table w1).
Proof.
  intros Hf w1 w2. subst w2 w1.
  rewrite (clear_expired_healthy w Hf). cbn [snd].
  destruct w as [t c f n d l p cs]. simpl in Hf. subst f.
  rewrite clear_expired_healthy by reflexivity. simpl.
  rewrite filter_expired_of_unexpired, filter_unexpired_idempotent, map_size_empty.
  split; [reflexivity|]. split; [reflexivity|]. split.
  - rewrite get_stats_healthy by reflexivity. simpl.
    rewrite filter_expired_of_unexpired, map_size_empty, Z.sub_0_r. reflexivity.
  - intros ticker dt. apply map_eq. intros k.
    match goal with
    | |- table (snd (Cache.get ticker dt ?w1)) !! k = _ =>
        destruct (get_changes_only_expired_row ticker dt w1 k) as [E|(_ & _ & r & Hr & He)]
    end; [exact E|].
    simpl in Hr, He. apply map_lookup_filter_Some in Hr as [_ Hr]. simpl in Hr.
    congruence.
Qed.

End SweepAgain.

(** An empty cache: a read changes no row. *)
Lemma get_only_removes_expired_row_witness :
  let w :=
    snd (Cache.set "MSFT" "stock_data" (VStockData (H := Demo.models) x2a) None
           Demo.fresh) in
  table (snd (Cache.get "AAPL" "stock_data" w)) !! _make_key "MSFT" "stock_data"
  = table w !! _make_key "MSFT" "stock_data".
Proof.
  intros w.
  destruct (get_only_removes_expired_row (H0 := Demo.externals) "AAPL" "stock_data" w
              (_make_key "MSFT" "stock_data")) as (_ & Hother & _).
  apply Hother. vm_compute. congruence.
Defined.

(** One expired row: swept once, then swept again. *)
Lemma clear_expired_is_idempotent_witness :
  let w :=
    advance 3000000
      (snd (Cache.set "TSLA" "fundamentals" (VFundamentals (H := Demo.models) x07)
              (Some 2) Demo.fresh)) in
  let w1 := snd (Cache.clear_expired w) in
  table (snd (Cache.clear_expired w1)) = table w1 /\
  log (snd (Cache.clear_expired w1)) = (log w1 ++ [(INFO, ClearedExpired 0)])%list.
Proof.
  intros w w1.
  destruct (clear_expired_is_idempotent (H0 := Demo.externals) w eq_refl)
    as (Htable & Hlog & _).
  split; [exact Htable | exact Hlog].
Defined.

Section LazyDeletion.

Context `{Externals}.

(** A read of an expired row on a healthy store, with the world it leaves. *)
Lemma get_expired_world ticker dt row w :
  faults w = [] ->
  table w !! _make_key ticker dt = Some row ->
  expired_at (clock w) row = true ->
  exists w',
    Cache.get ticker dt w = (Ok None, w') /\
    table w' = base.delete (_make_key ticker dt) (table w) /\
    faults w' = [] /\ clock w' = clock w /\ db_file w' = db_file w.
Proof.
  intros Hf Hrow Hexp. destruct w as [t c f n d l p cs]. simpl in *.
  subst f. unfold expired_at in Hexp.
  run. rewrite Hrow. simpl. rewrite Hexp. simpl.
  eexists. repeat split; reflexivity.
Qed.

Lemma size_delete_present (t : gmap string Row) k row :
  t !! k = Some row -> size t = S (size (base.delete k t)).
Proof.
  intros Hk. rewrite <- (map_size_insert_None k row (base.delete k t))
    by apply lookup_delete_eq.
  rewrite insert_delete_eq, insert_id by exact Hk. reflexivity.
Qed.

(** X12. Lazy deletion shows in the statistics.  On a healthy store with an
    expired row under a key, the statistics count that row as an entry and
    as expired; after one read of the key they report one entry less, one
    expired entry less, and as many valid entries as before. *)
Theorem expired_read_shrinks_stats ticker dt row w :
  faults w = [] ->
  table w !! _make_key ticker dt = Some row ->
  expired_at (clock w) row = true ->
  exists s0 s1,
    fst (Cache.get_stats w) = Ok (Some s0) /\
    fst (Cache.get_stats (snd (Cache.get ticker dt w))) = Ok (Some s1) /\
    Cache.total_entries s1 = Cache.total_entries s0 - 1 /\
    Cache.expired_entries s1 = Cache.expired_entries s0 - 1 /\
    Cache.valid_entries s1 = Cache.valid_entries s0.
Proof.
  intros Hf Hrow Hexp.
  destruct (get_expired_world ticker dt row w Hf Hrow Hexp)
    as (w' & Hg & Ht & Hf' & Hc & Hd).
  rewrite Hg. cbn [snd].
  rewrite (get_stats_healthy w Hf), (get_stats_healthy w' Hf').
  eexists. eexists. split; [reflexivity|]. split; [reflexivity|].
  cbn [Cache.total_entries Cache.expired_entries Cache.valid_entries].
  rewrite Ht, Hc, map_filter_delete.
  rewrite (size_delete_present (table w) _ row Hrow).
  rewrite (size_delete_present
             (filter (fun kr => expired_at (clock w) kr.2 = true) (table w))
             (_make_key ticker dt) row)
    by (apply map_lookup_filter_Some; split; assumption).
  repeat split; lia.
Qed.

End LazyDeletion.

(** The scenario of the specification: written with 2 seconds to live, read
    after 3, then counted. *)
Lemma expired_read_shrinks_stats_witness :
  let w :=
    advance 3000000
      (snd (Cache.set "TSLA" "fundamentals" (VFundamentals (H := Demo.models) x07)
              (Some 2) Demo.fresh)) in
  exists s0 s1,
    fst (Cache.get_stats w) = Ok (Some s0) /\
    fst (Cache.get_stats (snd (Cache.get "TSLA" "fundamentals" w))) = Ok (Some s1) /\
    Cache.total_entries s1 = Cache.total_entries s0 - 1 /\
    Cache.expired_entries s1 = Cache.expired_entries s0 - 1 /\
    Cache.valid_entries s1 = Cache.valid_entries s0.
Proof.
  apply (expired_read_shrinks_stats (H0 := Demo.externals) "TSLA" "fundamentals"
           (mkRow [x02; x07] "fundamentals" 0 2));
    vm_compute; reflexivity.
Defined.

(** * Further properties of the fetcher and of the wrapper *)

Arguments Cache.clear_ticker : simpl never.
Arguments DataFetcher.fetch_all_data : simpl never.

Section Wrapper.

Context `{Externals}.

Ltac run_methods :=
  unfold DataFetcher.fetch_all_data, DataFetcher.fetch_stock_price_history,
    DataFetcher.fetch_fundamental_data, DataFetcher.fetch_options_chain,
    DataFetcher.fetch_analyst_recommendations, DataFetcher.fetch_news_headlines,
    DataFetcher.called, DataFetcher.ask; run.

(** The single-category methods of the fetcher work on the provider, the
    log and the record of calls, and on nothing else. *)
Lemma collaborator_keeps_store m ticker kw w :
  table (snd (collaborator m ticker kw w)) = table w /\
  faults (snd (collaborator m ticker kw w)) = faults w /\
  clock (snd (collaborator m ticker kw w)) = clock w.
Proof.
  destruct w as [t c f n d l p cs].
  destruct m; unfold collaborator; run_methods.
  - destruct (yf_stock_price_history ticker (period kw) (interval kw) p) as [[]];
      repeat split.
  - destruct (yf_fundamental_data ticker p) as [[]]; repeat split.
  - destruct (yf_options_chain ticker p) as [[]]; repeat split.
  - destruct (yf_analyst_recommendations ticker p) as [[]]; repeat split.
  - destruct (yf_news_headlines ticker (max_items kw) p) as [[]]; repeat split.
Qed.

(** What [fetch_all_data] does besides building the bundle. *)
Lemma fetch_all_data_run ticker w :
  exists md w',
    DataFetcher.fetch_all_data ticker w = (Ok md, w') /\
    calls w' = (calls w ++ all_data_calls ticker)%list /\
    table w' = table w /\ faults w' = faults w /\ clock w' = clock w /\
    md_ticker md = upper ticker /\ md_timestamp md = clock w.
Proof.
  destruct w as [t c fl n d l p cs]. run_methods.
  destruct (yf_stock_price_history ticker "1y" "1d" p) as [[s|e1] p1]; simpl;
  destruct (yf_fundamental_data ticker p1) as [[f|e2] p2]; simpl;
  destruct (yf_options_chain ticker p2) as [[o|e3] p3]; simpl;
  destruct (yf_news_headlines ticker 20 p3) as [[ns|e4] p4]; simpl;
  destruct (yf_analyst_recommendations ticker p4) as [[a|e5] p5]; simpl;
  eexists; eexists; (split; [reflexivity|]); simpl;
  rewrite <- ?app_assoc; repeat split; reflexivity.
Qed.

(** The wrapper on a hit, on a miss, and without the cache. *)
Lemma read_through_hit ticker dt fetch v w w1 :
  Cache.get ticker dt w = (Ok (Some v), w1) ->
  CachedDataFetcher.read_through true ticker dt fetch w = (Ok v, w1).
Proof.
  intros Hg. unfold CachedDataFetcher.read_through, bind. rewrite Hg. reflexivity.
Qed.

Lemma read_through_miss ticker dt fetch w w1 :
  Cache.get ticker dt w = (Ok None, w1) ->
  CachedDataFetcher.read_through true ticker dt fetch w =
  match fetch w1 with
  | (Ok data, w2) =>
      match Cache.set ticker dt data None w2 with
      | (Ok _, w3) => (Ok data, w3)
      | (Raise e, w3) => (Raise e, w3)
      end
  | (Raise e, w2) => (Raise e, w2)
  end.
Proof.
  intros Hg. unfold CachedDataFetcher.read_through. unfold bind at 1. rewrite Hg.
  unfold bind at 1. destruct (fetch w1) as [[data|e] w2]; [|reflexivity].
  unfold bind, ret. destruct (Cache.set ticker dt data None w2) as [[u|e] w3];
    reflexivity.
Qed.

Lemma read_through_bypass ticker dt fetch w :
  CachedDataFetcher.read_through false ticker dt fetch w = fetch w.
Proof.
  unfold CachedDataFetcher.read_through, bind, ret.
  destruct (fetch w) as [[data|e] w']; reflexivity.
Qed.

(** X13. Without the cache the wrapper is the fetcher.  With [use_cache]
    false each of the six operations does exactly what the corresponding
    method of the fetcher does: same result, same final world.  No DuckDB
    call is made and no row changes. *)
Theorem wrapper_without_cache m ticker kw w :
  single_fetch false m ticker kw w = collaborator m ticker kw w /\
  CachedDataFetcher.fetch_all_data false ticker w =
    (d <- DataFetcher.fetch_all_data ticker ;; ret (VMarketData d)) w /\
  table (snd (single_fetch false m ticker kw w)) = table w /\
  faults (snd (single_fetch false m ticker kw w)) = faults w /\
  table (snd (CachedDataFetcher.fetch_all_data false ticker w)) = table w /\
  faults (snd (CachedDataFetcher.fetch_all_data false ticker w)) = faults w.
Proof.
  rewrite single_fetch_read_through, read_through_bypass.
  unfold CachedDataFetcher.fetch_all_data. rewrite read_through_bypass.
  destruct (collaborator_keeps_store m ticker kw w) as (Ht & Hf & _).
  split; [reflexivity|]. split; [reflexivity|].
  split; [exact Ht|]. split; [exact Hf|].
  unfold bind, ret.
  destruct (fetch_all_data_run ticker w) as (md & w' & Hr & _ & Ht' & Hf' & _).
  rewrite Hr. simpl. auto.
Qed.

(** X14. The keyword arguments are not part of the key.  On a hit, the
    wrapper returns the cached record whatever period, interval or item
    count the caller asks for: two requests that differ in their keyword
    arguments only get the same answer and leave the same world. *)
Theorem cached_answer_ignores_kwargs m ticker v w w1 kw1 kw2 :
  Cache.get ticker (category m) w = (Ok (Some v), w1) ->
  single_fetch true m ticker kw1 w = (Ok v, w1) /\
  single_fetch true m ticker kw2 w = single_fetch true m ticker kw1 w.
Proof.
  intros Hg. rewrite !single_fetch_read_through.
  rewrite !(read_through_hit _ _ _ v w w1 Hg). auto.
Qed.

(** X15. A failed fetch is not cached.  With the cache in use, when the
    lookup misses and the fetcher raises, the wrapper raises the same
    exception, and the store is as the lookup left it: no row is written and
    no further DuckDB call is made. *)
Theorem failed_fetch_is_not_cached m ticker kw e w w1 w2 :
  Cache.get ticker (category m) w = (Ok None, w1) ->
  collaborator m ticker kw w1 = (Raise e, w2) ->
  single_fetch true m ticker kw w = (Raise e, w2) /\
  table w2 = table w1 /\
  faults w2 = faults w1 /\
  calls w2 = (calls w ++ [(m, ticker)])%list.
Proof.
  intros Hg Hc. rewrite single_fetch_read_through.
  rewrite (read_through_miss _ _ _ w w1 Hg), Hc.
  destruct (collaborator_keeps_store m ticker kw w1) as (Ht & Hf & _).
  rewrite Hc in Ht, Hf. simpl in Ht, Hf.
  pose proof (collaborator_called m ticker kw w1) as Hcalls.
  rewrite Hc in Hcalls. simpl in Hcalls.
  pose proof (keeps_get ticker (category m) w) as [Hk _].
  rewrite Hg in Hk. simpl in Hk.
  repeat split; congruence.
Qed.

End Wrapper.

(** A hit for MSFT answers a request for five days as it answers one for a
    year. *)
Lemma cached_answer_ignores_kwargs_witness :
  let w := snd (single_fetch true PriceHistory "MSFT" Demo.kw Demo.fresh) in
  single_fetch true PriceHistory "MSFT" (mkKwargs "5d" "1h" 20) w
  = single_fetch true PriceHistory "MSFT" Demo.kw w.
Proof.
  intros w.
  destruct (cached_answer_ignores_kwargs (H0 := Demo.externals) PriceHistory "MSFT"
              (VStockData (H := Demo.models) x2a) w
              (snd (Cache.get "MSFT" "stock_data" w))
              Demo.kw (mkKwargs "5d" "1h" 20)) as [_ Hsame].
  - vm_compute. reflexivity.
  - exact Hsame.
Defined.

(** The provider of the small instance has no options: nothing is cached. *)
Lemma failed_fetch_is_not_cached_witness :
  fst (single_fetch true OptionsChainM "AAPL" Demo.kw Demo.fresh)
    = Raise (ProviderError "no options") /\
  table (snd (single_fetch true OptionsChainM "AAPL" Demo.kw Demo.fresh)) = ∅.
Proof.
  destruct (failed_fetch_is_not_cached (H0 := Demo.externals) OptionsChainM "AAPL"
              Demo.kw (ProviderError "no options") Demo.fresh
              (snd (Cache.get "AAPL" "options_chain" Demo.fresh))
              (snd (collaborator OptionsChainM "AAPL" Demo.kw
                      (snd (Cache.get "AAPL" "options_chain" Demo.fresh)))))
    as (Hr & Ht & _).
  - vm_compute. reflexivity.
  - vm_compute. reflexivity.
  - rewrite Hr. split; [reflexivity|]. cbn [snd]. rewrite Ht. vm_compute. reflexivity.
Defined.

Section NegativeCaching.

Context `{Externals}.

Lemma news_default_expiry : Cache._get_default_expiry "news" = 3600.
Proof. reflexivity. Qed.

(** X16. A failure of the news provider is cached as an empty list.  The
    news method of the fetcher answers a provider failure with [[]], and the
    wrapper caches what the fetcher answers: on a healthy store with no
    news row for the ticker, the wrapper returns [[]] and writes it with
    3600 seconds to live; for that hour every news request for the ticker
    gets [[]] from the cache and the fetcher is not called again. *)
Theorem news_failure_is_cached ticker kw kw' e p' b d w :
  faults w = [] ->
  table w !! _make_key ticker "news" = None ->
  yf_news_headlines ticker (max_items kw) (provider w) = (Raise e, p') ->
  pickle_dumps (VNews []) = Some b ->
  pickle_loads b = Some (VNews []) ->
  0 <= d <= timedelta 3600 ->
  let w1 := snd (single_fetch true NewsHeadlines ticker kw w) in
  let w2 := advance d w1 in
  fst (single_fetch true NewsHeadlines ticker kw w) = Ok (VNews []) /\
  table w1 !! _make_key ticker "news" = Some (mkRow b "news" (clock w) 3600) /\
  fst (single_fetch true NewsHeadlines ticker kw' w2) = Ok (VNews []) /\
  calls (snd (single_fetch true NewsHeadlines ticker kw' w2)) = calls w1.
Proof.
  intros Hf Hmiss Hp Hb Hdec Hd w1 w2. subst w2 w1.
  assert (Hfirst :
    exists w3,
      single_fetch true NewsHeadlines ticker kw w = (Ok (VNews []), w3) /\
      table w3 = <[_make_key ticker "news" := mkRow b "news" (clock w) 3600]> (table w) /\
      faults w3 = [] /\ clock w3 = clock w).
  { rewrite single_fetch_read_through.
    rewrite (read_through_miss _ _ _ w _ (get_miss ticker "news" w Hf Hmiss)).
    unfold collaborator. unfold bind at 1. rewrite fetch_news_headlines_total.
    destruct w as [t c f n dd l p cs]. simpl in Hf, Hp, Hmiss. subst f.
    simpl. rewrite Hp. unfold ret at 1.
    rewrite (set_run ticker "news" (VNews []) None b) by
      first [reflexivity | exact Hb].
    eexists. split; [reflexivity|]. simpl. rewrite news_default_expiry.
    repeat split; reflexivity. }
  destruct Hfirst as (w3 & Hr & Ht & Hf3 & Hc3). rewrite Hr. cbn [fst snd].
  split; [reflexivity|]. split; [rewrite Ht; apply lookup_insert_eq|].
  destruct (get_fresh ticker "news" (mkRow b "news" (clock w) 3600) (VNews [])
              (advance d w3)) as (w4 & Hg & _ & _ & Hcalls).
  - destruct w3; exact Hf3.
  - destruct w3; simpl in *. rewrite Ht. apply lookup_insert_eq.
  - exact Hdec.
  - unfold expired_at. destruct w3; simpl in *. subst. apply Z.ltb_ge. lia.
  - rewrite single_fetch_read_through.
    rewrite (read_through_hit _ _ _ _ _ _ Hg). cbn [fst snd].
    split; [reflexivity|]. rewrite Hcalls. destruct w3; reflexivity.
Qed.


(** X18. [fetch_all_data] asks for everything, whatever fails.  In every
    world it returns a bundle for the uppercase ticker stamped with the
    current time, after calling the five fetcher methods once each, in the
    order price history, fundamentals, options, news, ratings; a failure of
    one does not keep the later ones from being called.  It makes no DuckDB
    call and changes no row, and when the provider has no news the bundle's
    news list is empty. *)
Theorem fetch_all_data_asks_for_everything ticker w :
  (exists md w',
     DataFetcher.fetch_all_data ticker w = (Ok md, w') /\
     calls w' = (calls w ++ all_data_calls ticker)%list /\
     table w' = table w /\ faults w' = faults w /\ clock w' = clock w /\
     md_ticker md = upper ticker /\ md_timestamp md = clock w) /\
  (forall s p1 f p2 o p3 e p4,
     yf_stock_price_history ticker "1y" "1d" (provider w) = (s, p1) ->
     yf_fundamental_data ticker p1 = (f, p2) ->
     yf_options_chain ticker p2 = (o, p3) ->
     yf_news_headlines ticker 20 p3 = (Raise e, p4) ->
     exists md,
       fst (DataFetcher.fetch_all_data ticker w) = Ok md /\
       news md = [] /\ has_news_data md = false).
Proof.
  split; [apply fetch_all_data_run|].
  intros s p1 f p2 o p3 e p4 Hs Hf Ho Hn.
  destruct w as [t c fl n d l p cs]. simpl in Hs.
  unfold DataFetcher.fetch_all_data, DataFetcher.fetch_stock_price_history,
    DataFetcher.fetch_fundamental_data, DataFetcher.fetch_options_chain,
    DataFetcher.fetch_analyst_recommendations, DataFetcher.fetch_news_headlines,
    DataFetcher.called, DataFetcher.ask; run.
  rewrite Hs. destruct s as [s|e1]; simpl; rewrite Hf; destruct f as [f|e2]; simpl;
    rewrite Ho; destruct o as [o|e3]; simpl; rewrite Hn; simpl;
    destruct (yf_analyst_recommendations ticker p4) as [[a|e5] p5]; simpl;
    eexists; repeat split.
Qed.

End NegativeCaching.

(** The provider of the small instance has no news; one second later the
    empty list is served from the cache. *)
Lemma news_failure_is_cached_witness :
  let w1 := snd (single_fetch true NewsHeadlines "AAPL" Demo.kw Demo.fresh) in
  let w2 := advance 1000000 w1 in
  fst (single_fetch true NewsHeadlines "AAPL" Demo.kw Demo.fresh)
    = Ok (VNews (H := Demo.models) []) /\
  table w1 !! _make_key "AAPL" "news" = Some (mkRow [x04] "news" 0 3600) /\
  fst (single_fetch true NewsHeadlines "AAPL" Demo.kw w2)
    = Ok (VNews (H := Demo.models) []) /\
  calls (snd (single_fetch true NewsHeadlines "AAPL" Demo.kw w2)) = calls w1.
Proof.
  apply (news_failure_is_cached (H0 := Demo.externals) "AAPL" Demo.kw Demo.kw
           (ProviderError "no news") 1%nat [x04] 1000000 Demo.fresh);
    try reflexivity.
  unfold timedelta. lia.
Defined.


(** The provider of the small instance has no news for the bundle either. *)
Lemma fetch_all_data_asks_for_everything_witness :
  exists md : @MarketData Demo.models,
    fst (DataFetcher.fetch_all_data (H0 := Demo.externals) "AAPL" Demo.fresh) = Ok md /\
    news md = [] /\ has_news_data md = false.
Proof.
  destruct (fetch_all_data_asks_for_everything (H0 := Demo.externals) "AAPL" Demo.fresh)
    as [_ Hnews].
  apply (Hnews (Ok x2a) 1%nat (Ok x07) 2%nat (Raise (ProviderError "no options")) 3%nat
           (ProviderError "no news") 4%nat); reflexivity.
Defined.

(** * Option chains *)

Section OptionChains.

Variable float : Type.

Local Abbreviation OptionsChain := (OptionsData.OptionsChain float).
Local Abbreviation OptionContract := (OptionsData.OptionContract float).

(** [min] returns an element of the sequence that no element is below. *)
Lemma py_min_spec (rest : list Z) : forall first,
  In (OptionsData.py_min first rest) (first :: rest) /\
  forall e, In e (first :: rest) -> OptionsData.py_min first rest <= e.
Proof.
  unfold OptionsData.py_min.
  induction rest as [|x rest IH]; intros first; simpl.
  - split; [left; reflexivity|]. intros e [<-|[]]. lia.
  - destruct (IH (if x <? first then x else first)) as [Hin Hle]. split.
    + destruct Hin as [Hin|Hin]; [|right; right; exact Hin].
      rewrite <- Hin. destruct (x <? first); [right; left | left]; reflexivity.
    + intros e He.
      assert (Hm : fold_left (fun m x0 => if x0 <? m then x0 else m) rest
                     (if x <? first then x else first)
                   <= (if x <? first then x else first))
        by (apply Hle; left; reflexivity).
      destruct He as [<-|[<-|He]].
      * destruct (x <? first) eqn:E; [apply Z.ltb_lt in E|]; lia.
      * destruct (x <? first) eqn:E; [|apply Z.ltb_ge in E]; lia.
      * apply Hle. right. exact He.
Qed.

(** X19. The nearest expiration.  [get_nearest_expiration] returns [None]
    exactly when the chain lists no expiration; otherwise it returns one of
    the listed expirations, and none of them is earlier. *)
Theorem get_nearest_expiration_is_earliest (self : OptionsChain) :
  (OptionsData.get_nearest_expiration float self = None <->
   OptionsData.expirations float self = []) /\
  (forall m,
     OptionsData.get_nearest_expiration float self = Some m ->
     In m (OptionsData.expirations float self) /\
     forall e, In e (OptionsData.expirations float self) -> m <= e).
Proof.
  unfold OptionsData.get_nearest_expiration.
  destruct (OptionsData.expirations float self) as [|x rest].
  - split; [tauto|]. discriminate.
  - split; [split; discriminate|].
    intros m [= <-]. apply py_min_spec.
Qed.

(** X20. Contracts by expiration.  [get_calls_by_expiration] returns, in
    the order of the chain, exactly the calls that expire at the date asked
    for, and never a put; [get_puts_by_expiration] likewise for the puts.
    For a date at which no call expires the answer is the empty list, and
    the calls of all the dates together are no more than the calls of the
    chain. *)
Theorem contracts_by_expiration (self : OptionsChain) (e : Z) :
  (forall c : OptionContract,
     In c (OptionsData.get_calls_by_expiration float self e) <->
     In c (OptionsData.calls float self) /\ OptionsData.expiration float c = e) /\
  (forall p : OptionContract,
     In p (OptionsData.get_puts_by_expiration float self e) <->
     In p (OptionsData.puts float self) /\ OptionsData.expiration float p = e) /\
  sublist (OptionsData.get_calls_by_expiration float self e)
    (OptionsData.calls float self) /\
  sublist (OptionsData.get_puts_by_expiration float self e)
    (OptionsData.puts float self) /\
  ((forall c, In c (OptionsData.calls float self) ->
              OptionsData.expiration float c <> e) ->
   OptionsData.get_calls_by_expiration float self e = []) /\
  (forall e', e' <> e ->
     (length (OptionsData.get_calls_by_expiration float self e) +
      length (OptionsData.get_calls_by_expiration float self e') <=
      length (OptionsData.calls float self))%nat).
Proof.
  unfold OptionsData.get_calls_by_expiration, OptionsData.get_puts_by_expiration.
  assert (Hsub : forall (l : list OptionContract) x,
            sublist (List.filter (fun c => OptionsData.expiration float c =? x) l) l).
  { intros l x. induction l as [|c l IH]; simpl; [constructor|].
    destruct (OptionsData.expiration float c =? x); constructor; exact IH. }
  split; [|split; [|split; [|split; [|split]]]].
  - intros c. rewrite List.filter_In, Z.eqb_eq. reflexivity.
  - intros p. rewrite List.filter_In, Z.eqb_eq. reflexivity.
  - apply Hsub.
  - apply Hsub.
  - intros Hnone. induction (OptionsData.calls float self) as [|c l IH]; [reflexivity|].
    simpl. destruct (OptionsData.expiration float c =? e) eqn:E.
    + apply Z.eqb_eq in E. exfalso. apply (Hnone c); [left; reflexivity | exact E].
    + apply IH. intros c' Hc'. apply Hnone. right. exact Hc'.
  - intros e' Hne. induction (OptionsData.calls float self) as [|c l IH]; simpl; [lia|].
    destruct (OptionsData.expiration float c =? e) eqn:E1;
      destruct (OptionsData.expiration float c =? e') eqn:E2; simpl; lia.
Qed.

End OptionChains.

(** A chain listing three expirations out of order. *)
Lemma get_nearest_expiration_is_earliest_witness :
  let chain := OptionsData.mkOptionsChain unit "AAPL" 0 [30; 10; 20] [] [] in
  OptionsData.get_nearest_expiration unit chain = Some 10 /\
  forall e, In e [30; 10; 20] -> 10 <= e.
Proof.
  intros chain.
  destruct (get_nearest_expiration_is_earliest unit chain) as [_ Hmin].
  assert (E : OptionsData.get_nearest_expiration unit chain = Some 10) by reflexivity.
  split; [exact E|]. apply (Hmin 10 E).
Defined.

(** A chain with two calls at different dates and no put. *)
Lemma contracts_by_expiration_witness :
  let call e :=
    OptionsData.mkOptionContract unit "AAPL" "C" tt e "call" tt tt tt 0 0
      None None None None None false in
  let chain := OptionsData.mkOptionsChain unit "AAPL" 0 [10; 20] [call 10; call 20] [] in
  In (call 20) (OptionsData.get_calls_by_expiration unit chain 20) /\
  OptionsData.get_calls_by_expiration unit chain 30 = [].
Proof.
  intros call chain.
  destruct (contracts_by_expiration unit chain 20) as (Hcalls & _).
  destruct (contracts_by_expiration unit chain 30) as (_ & _ & _ & _ & Hnone & _).
  split.
  - apply Hcalls. split; [right; left; reflexivity | reflexivity].
  - apply Hnone. intros c [<-|[<-|[]]]; discriminate.
Defined.

Section Schema.

Context `{Externals}.

(** X21. Opening a cache keeps its rows and is not fail-open.  In every
    world [_ensure_schema], which the constructor runs, leaves the rows of an
    existing table as they are.  On a healthy store it returns; when the
    connection is refused or the [CREATE TABLE] statement fails, the error
    reaches the caller: unlike the other operations it has no [except]
    clause. *)
Theorem ensure_schema_keeps_rows_and_raises w :
  table (snd (Cache._ensure_schema w)) = table w /\
  (faults w = [] -> fst (Cache._ensure_schema w) = Ok tt) /\
  (forall fs, faults w = true :: fs ->
     fst (Cache._ensure_schema w) = Raise DuckDBError) /\
  (forall fs, faults w = false :: true :: fs ->
     fst (Cache._ensure_schema w) = Raise DuckDBError) /\
  (forall fs, faults w = false :: false :: fs ->
     fst (Cache._ensure_schema w) = Ok tt).
Proof.
  destruct w as [t c f n d l p cs]. run.
  split; [destruct f as [|[] [|[] fs]]; reflexivity|].
  repeat split; intros; subst; reflexivity.
Qed.

End Schema.

(** A store that accepts the connection and fails the statement. *)
Lemma ensure_schema_keeps_rows_and_raises_witness :
  fst (Cache._ensure_schema (H0 := Demo.externals)
         (with_faults [false; true] Demo.fresh)) = Raise DuckDBError /\
  fst (Cache._ensure_schema (H0 := Demo.externals) Demo.fresh) = Ok tt.
Proof.
  destruct (ensure_schema_keeps_rows_and_raises (H0 := Demo.externals)
              (with_faults [false; true] Demo.fresh)) as (_ & _ & _ & Hfail & _).
  destruct (ensure_schema_keeps_rows_and_raises (H0 := Demo.externals) Demo.fresh)
    as (_ & Hok & _).
  split; [apply (Hfail []); reflexivity | apply Hok; reflexivity].
Defined.
